(** * node-mavlink-ftp: the MavFTP payload codec, directory-listing parser
      and session engine of [src/index.ts], embedded and verified.

    Conventions of the embedding.
    - A [Uint8Array] or Node [Buffer] is a [list byte]; a JS [number] holding
      an integer is a [Z]; Node's range and bounds checks are written out.
    - A thrown exception is a [Throw]; the engine's methods run in a state and
      exception monad over the engine's fields and its environment.
    - A JS string is a [string] of code units below 256. *)

From Stdlib Require Import ZArith Lia Bool List.
From Stdlib Require Import Strings.Byte Strings.Ascii Strings.String.
From Stdlib Require Import DecimalString.
From stdpp Require Import base tactics option list.

Open Scope Z_scope.

(** ** Exceptions and completions *)

(** What the code throws: [new Error(message)], or the [RangeError]
    (ERR_OUT_OF_RANGE) of Node's [Buffer] accessors. *)
Inductive error : Type :=
| Error (message : string)
| RangeError.

(** How an evaluation ends. [OutOfFuel] only marks a [while (true)] loop cut
    off by the fuel of its model; no source path produces it. *)
Inductive completion (A : Type) : Type :=
| Normal (value : A)
| Throw (e : error)
| OutOfFuel.
Arguments Normal {A} value.
Arguments Throw {A} e.
Arguments OutOfFuel {A}.

#[export] Instance completion_ret : MRet completion := fun A x => Normal x.
#[export] Instance completion_bind : MBind completion := fun A B f c =>
  match c with
  | Normal x => f x
  | Throw e => Throw e
  | OutOfFuel => OutOfFuel
  end.
#[export] Instance completion_fmap : FMap completion := fun A B f c =>
  match c with
  | Normal x => Normal (f x)
  | Throw e => Throw e
  | OutOfFuel => OutOfFuel
  end.

(** ** Bytes and Node's Buffer accessors *)

Abbreviation Buffer := (list byte).

(** The number a byte holds. *)
Definition u8 (b : byte) : Z := Z.of_N (Byte.to_N b).

(** Storing a number into a [Uint8Array] slot keeps its low 8 bits. *)
Definition low_byte (v : Z) : byte :=
  match Byte.of_N (Z.to_N (Z.land v 255)) with
  | Some b => b
  | None => x00
  end.

Definition in_range (v lo hi : Z) : bool := (lo <=? v) && (v <=? hi).

Definition writeUInt8 (buf : Buffer) (value : Z) (offset : nat) : completion Buffer :=
  if negb (in_range value 0 255) then Throw RangeError
  else if negb (offset <? length buf)%nat then Throw RangeError
  else Normal (<[offset := low_byte value]> buf).

Definition writeUInt16LE (buf : Buffer) (value : Z) (offset : nat) : completion Buffer :=
  if negb (in_range value 0 65535) then Throw RangeError
  else if negb (offset + 1 <? length buf)%nat then Throw RangeError
  else Normal (<[offset + 1 := low_byte (Z.shiftr value 8)]>
               (<[offset := low_byte value]> buf))%nat.

Definition writeUInt32LE (buf : Buffer) (value : Z) (offset : nat) : completion Buffer :=
  if negb (in_range value 0 4294967295) then Throw RangeError
  else if negb (offset + 3 <? length buf)%nat then Throw RangeError
  else Normal (<[offset + 3 := low_byte (Z.shiftr value 24)]>
               (<[offset + 2 := low_byte (Z.shiftr value 16)]>
               (<[offset + 1 := low_byte (Z.shiftr value 8)]>
               (<[offset := low_byte value]> buf))))%nat.

Definition readUInt8 (buf : Buffer) (offset : nat) : completion Z :=
  match buf !! offset with
  | Some b => Normal (u8 b)
  | None => Throw RangeError
  end.

Definition readUInt16LE (buf : Buffer) (offset : nat) : completion Z :=
  match buf !! offset, buf !! (offset + 1)%nat with
  | Some first, Some last => Normal (u8 first + u8 last * 2 ^ 8)
  | _, _ => Throw RangeError
  end.

Definition readUInt32LE (buf : Buffer) (offset : nat) : completion Z :=
  match buf !! offset, buf !! (offset + 3)%nat with
  | Some first, Some last =>
      match buf !! (offset + 1)%nat, buf !! (offset + 2)%nat with
      | Some b1, Some b2 =>
          Normal (u8 first + u8 b1 * 2 ^ 8 + u8 b2 * 2 ^ 16 + u8 last * 2 ^ 24)
      | _, _ => Throw RangeError
      end
  | _, _ => Throw RangeError
  end.

(** ** FileTransferProtocolPayload and its serializer *)

Module Payload.
Record t : Type := make {
  seq : Z;
  session : Z;
  opcode : Z;
  size : Z;
  reqOpcode : option Z;
  burstComplete : Z;
  offset : option Z;
  data : list byte;
}.
End Payload.

Abbreviation FileTransferProtocolPayload := Payload.t.

(** [x || 0] on an optional number. *)
Definition or_zero (x : option Z) : Z :=
  match x with
  | Some v => v
  | None => 0
  end.

(** The loop [for (i = 0; i < data.length; i++) result.writeUInt8(data[i], 12 + i)],
    entered at index [i] with [data] the bytes still to write. *)
Fixpoint serialize_data (data : list byte) (i : nat) (result : Buffer) : completion Buffer :=
  match data with
  | [] => Normal result
  | b :: rest =>
      result ← writeUInt8 result (u8 b) (12 + i);
      serialize_data rest (S i) result
  end.

Definition serialize (payload : FileTransferProtocolPayload) : completion Buffer :=
  let result := replicate (12 + length (Payload.data payload)) x00 in
  result ← writeUInt16LE result (Payload.seq payload) 0;
  result ← writeUInt8 result (Payload.session payload) 2;
  result ← writeUInt8 result (Payload.opcode payload) 3;
  result ← writeUInt8 result (Payload.size payload) 4;
  result ← writeUInt8 result (or_zero (Payload.reqOpcode payload)) 5;
  result ← writeUInt8 result (Payload.burstComplete payload) 6;
  result ← writeUInt8 result 0 7;
  result ← writeUInt32LE result (or_zero (Payload.offset payload)) 8;
  serialize_data (Payload.data payload) 0 result.

(** The loop [for (i = 0; i < result.data.length; i++) result.data[i] =
    buffer.readUInt8(12 + i)], with [n] slots left to fill from index [i]. *)
Fixpoint deserialize_data (buffer : Buffer) (n : nat) (i : nat) : completion (list byte) :=
  match n with
  | O => Normal []
  | S n' =>
      v ← readUInt8 buffer (12 + i);
      rest ← deserialize_data buffer n' (S i);
      Normal (low_byte v :: rest)
  end.

Definition deserialize (buffer : Buffer) : completion FileTransferProtocolPayload :=
  size ← readUInt8 buffer 4;
  seq ← readUInt16LE buffer 0;
  session ← readUInt8 buffer 2;
  opcode ← readUInt8 buffer 3;
  reqOpcode ← readUInt8 buffer 5;
  burstComplete ← readUInt8 buffer 6;
  offset ← readUInt32LE buffer 8;
  data ← deserialize_data buffer (Z.to_nat size) 0;
  Normal (Payload.make seq session opcode size (Some reqOpcode) burstComplete
            (Some offset) data).

(** ** Strings built from bytes and numbers *)

(** [String.fromCharCode(b)] for a byte [b], as a one-character string. *)
Definition fromCharCode (b : byte) : string := String (ascii_of_byte b) EmptyString.

(** The decimal text of a non-negative integer, as a template literal
    [`${n}`] prints it. *)
Definition decimal (n : Z) : string := NilEmpty.string_of_uint (N.to_uint (Z.to_N n)).

(** The JS numbers [parseInt] returns: [NaN]; an integer of magnitude at most
    2^53, which a double holds exactly; negative zero; or the double that an
    integer [z] above 2^53 in magnitude is rounded to. Which double that is,
    is left open: past 20 significant digits the language leaves the rounding
    to the implementation. *)
Inductive number : Type :=
| NaN
| Int (z : Z)
| NegativeZero
| Rounded (z : Z).

(** White space that [parseInt] skips, among the code units below 256. *)
Definition is_white_space (c : ascii) : bool :=
  let n := N_of_ascii c in
  ((9 <=? n) && (n <=? 13) || (n =? 32) || (n =? 160))%N.

Fixpoint trim_start (s : string) : string :=
  match s with
  | String c rest => if is_white_space c then trim_start rest else s
  | EmptyString => s
  end.

Definition digit_value (c : ascii) : option Z :=
  let n := Z.of_N (N_of_ascii c) in
  if in_range n 48 57 then Some (n - 48)
  else if in_range n 97 122 then Some (n - 87)
  else if in_range n 65 90 then Some (n - 55)
  else None.

(** The longest prefix of digits of the radix, as a number; [acc] is the value
    of the digits read so far, [None] before the first one. *)
Fixpoint parse_digits (radix : Z) (s : string) (acc : option Z) : option Z :=
  match s with
  | String c rest =>
      match digit_value c with
      | Some d =>
          if d <? radix then parse_digits radix rest (Some (or_zero acc * radix + d))
          else acc
      | None => acc
      end
  | EmptyString => acc
  end.

(** [parseInt(s)] with no radix argument. *)
Definition parseInt (s : string) : number :=
  let s := trim_start s in
  let '(sign, s) :=
    match s with
    | String "-" rest => (-1, rest)
    | String "+" rest => (1, rest)
    | _ => (1, s)
    end in
  let '(radix, s) :=
    match s with
    | String "0" (String "x" rest) => (16, rest)
    | String "0" (String "X" rest) => (16, rest)
    | _ => (10, s)
    end in
  match parse_digits radix s None with
  | Some v =>
      if v =? 0 then (if sign <? 0 then NegativeZero else Int 0)
      else if v <=? 2 ^ 53 then Int (sign * v)
      else Rounded (sign * v)
  | None => NaN
  end.

(** ** MavFTPDirectoryListingParser *)

Module Entry.
Record t : Type := make {
  type : string;
  name : string;
  size : option number;
}.
End Entry.

Abbreviation MavFTPDirectoryListingEntry := Entry.t.

Inductive MavFTPDirectoryListingParserState : Type :=
| TYPE
| FILE_NAME
| SIZE
| DIR_NAME
| STORE.

(** The record under construction, [let entry = { type, name, size }], all
    three of them strings. *)
Record entry_acc : Type := {
  acc_type : string;
  acc_name : string;
  acc_size : string;
}.

Definition empty_entry : entry_acc :=
  {| acc_type := ""; acc_name := ""; acc_size := "" |}.

(** The body of [parse]'s [for] loop, over the bytes from index [i] on. Every
    iteration consumes one byte, in state [STORE] too. *)
Fixpoint parse_loop (data : list byte) (state : MavFTPDirectoryListingParserState)
    (entry : entry_acc) (result : list MavFTPDirectoryListingEntry)
    : completion (list MavFTPDirectoryListingEntry) :=
  match data with
  | [] => Normal result
  | b :: rest =>
      match state with
      | TYPE =>
          if u8 b =? 70 then
            parse_loop rest FILE_NAME
              {| acc_type := "file"; acc_name := acc_name entry; acc_size := acc_size entry |}
              result
          else if u8 b =? 68 then
            parse_loop rest DIR_NAME
              {| acc_type := "directory"; acc_name := acc_name entry; acc_size := acc_size entry |}
              result
          else Throw (Error ("Unknown entry type: " ++ decimal (u8 b)))
      | FILE_NAME =>
          if u8 b =? 9 then parse_loop rest SIZE entry result
          else
            parse_loop rest FILE_NAME
              {| acc_type := acc_type entry; acc_name := acc_name entry ++ fromCharCode b;
                 acc_size := acc_size entry |}
              result
      | SIZE =>
          if u8 b =? 0 then parse_loop rest STORE entry result
          else
            parse_loop rest SIZE
              {| acc_type := acc_type entry; acc_name := acc_name entry;
                 acc_size := acc_size entry ++ fromCharCode b |}
              result
      | DIR_NAME =>
          if u8 b =? 0 then parse_loop rest STORE entry result
          else
            parse_loop rest DIR_NAME
              {| acc_type := acc_type entry; acc_name := acc_name entry ++ fromCharCode b;
                 acc_size := acc_size entry |}
              result
      | STORE =>
          parse_loop rest TYPE empty_entry
            (result ++
             [Entry.make (acc_type entry) (acc_name entry)
                (if String.eqb (acc_type entry) "file" then Some (parseInt (acc_size entry))
                 else None)])
      end
  end.

Definition parse (data : list byte) : completion (list MavFTPDirectoryListingEntry) :=
  parse_loop data TYPE empty_entry [].

(** The bytes of a string of code units below 256, one byte each. *)
Definition bytes_of_string (s : string) : list byte := list_byte_of_string s.

Definition TAB : byte := x09.
Definition NUL : byte := x00.

(** ** Protocol constants *)

(** [common.MavFtpOpcode] of the MAVLink common dialect (mavlink-mappings). *)
Module MavFtpOpcode.
Definition NONE : Z := 0.
Definition TERMINATESESSION : Z := 1.
Definition RESETSESSION : Z := 2.
Definition LISTDIRECTORY : Z := 3.
Definition OPENFILERO : Z := 4.
Definition READFILE : Z := 5.
Definition REMOVEFILE : Z := 8.
Definition ACK : Z := 128.
Definition NAK : Z := 129.
End MavFtpOpcode.

(** The enum [FileTransferProtocolError]. *)
Module FileTransferProtocolError.
Definition None_ : Z := 0.
Definition Fail : Z := 1.
Definition FailErrno : Z := 2.
Definition InvalidDataSize : Z := 3.
Definition InvalidSession : Z := 4.
Definition NoSessionsAvailable : Z := 5.
Definition EOF : Z := 6.
Definition UnknownCommand : Z := 7.
Definition FileExists : Z := 8.
Definition FileProtected : Z := 9.
Definition FileNotFound : Z := 10.

(** The reverse mapping [FileTransferProtocolError[code]] of the numeric
    enum: the member's name, [None] (undefined) for any other index. *)
Definition name (code : option Z) : option string :=
  match code with
  | Some 0 => Some "None"
  | Some 1 => Some "Fail"
  | Some 2 => Some "FailErrno"
  | Some 3 => Some "InvalidDataSize"
  | Some 4 => Some "InvalidSession"
  | Some 5 => Some "NoSessionsAvailable"
  | Some 6 => Some "EOF"
  | Some 7 => Some "UnknownCommand"
  | Some 8 => Some "FileExists"
  | Some 9 => Some "FileProtected"
  | Some 10 => Some "FileNotFound"
  | _ => None
  end%string.
End FileTransferProtocolError.

(** [new Error(m)] for a message that may be undefined: the message is then
    empty. *)
Definition new_Error (m : option string) : error :=
  match m with
  | Some s => Error s
  | None => Error ""
  end.

(** [e.message]. *)
Definition error_message (e : error) : string :=
  match e with
  | Error m => m
  | RangeError => "ERR_OUT_OF_RANGE"
  end.

(** [response.data[0]]: the first data byte, [None] (undefined) when there is
    none. *)
Definition data0 (response : FileTransferProtocolPayload) : option Z :=
  u8 <$> Payload.data response !! 0%nat.

Definition option_Z_eqb (x y : option Z) : bool :=
  match x, y with
  | Some a, Some b => a =? b
  | None, None => true
  | _, _ => false
  end.

(** ** The engine and its environment *)

(** The message [common.FileTransferProtocol] handed to the transport. *)
Record FileTransferProtocol : Type := {
  targetNetwork : Z;
  targetSystem : Z;
  targetComponent : Z;
  payload : list byte;
}.

(** What the environment does with one transmission of a request: the port
    rejects the write, or the message leaves and no [ftp] event arrives within
    the timeout, or it leaves and an inbound FileTransferProtocol packet
    arrives in time, decoding to [response]. *)
Inductive attempt : Type :=
| TransmitFailed (message : string)
| TimedOut
| Responded (response : FileTransferProtocolPayload).

(** The fields of a [MavFTP] instance, with the environment's script of
    coming attempts, the messages handed to the port so far (one per
    transmission attempt, in order) and the calls made to the progress
    callback. When the script is used up, every further wait times out. *)
Record MavFTP : Type := {
  session : Z;
  sequence : Z;
  incoming : list attempt;
  port : list FileTransferProtocol;
  progress : list (Z * Z);
}.

Definition M (A : Type) : Type := MavFTP -> completion A * MavFTP.

#[export] Instance M_ret : MRet M := fun A x this => (Normal x, this).
#[export] Instance M_bind : MBind M := fun A B f m this =>
  match m this with
  | (Normal x, this') => f x this'
  | (Throw e, this') => (Throw e, this')
  | (OutOfFuel, this') => (OutOfFuel, this')
  end.

Definition throw {A} (e : error) : M A := fun this => (Throw e, this).
Definition out_of_fuel {A} : M A := fun this => (OutOfFuel, this).
Definition lift {A} (c : completion A) : M A := fun this => (c, this).

(** [try { body } catch (e) { handler e }]. *)
Definition try_catch {A} (body : M A) (handler : error -> M A) : M A := fun this =>
  match body this with
  | (Throw e, this') => handler e this'
  | r => r
  end.

(** [try { body } finally { final }]: [final] runs however [body] ends, and a
    throw of [final] replaces the completion of [body]. *)
Definition try_finally {A B} (body : M A) (final : M B) : M A := fun this =>
  match body this with
  | (OutOfFuel, this') => (OutOfFuel, this')
  | (r, this') =>
      match final this' with
      | (Normal _, this'') => (r, this'')
      | (Throw e, this'') => (Throw e, this'')
      | (OutOfFuel, this'') => (OutOfFuel, this'')
      end
  end.

Definition get_session : M Z := fun this => (Normal (session this), this).
Definition get_sequence : M Z := fun this => (Normal (sequence this), this).

Definition set_session (v : Z) : M unit := fun this =>
  (Normal tt, {| session := v; sequence := sequence this; incoming := incoming this;
                 port := port this; progress := progress this |}).

Definition set_sequence (v : Z) : M unit := fun this =>
  (Normal tt, {| session := session this; sequence := v; incoming := incoming this;
                 port := port this; progress := progress this |}).

Definition set_incoming (v : list attempt) (this : MavFTP) : MavFTP :=
  {| session := session this; sequence := sequence this; incoming := v;
     port := port this; progress := progress this |}.

Definition write_port (msg : FileTransferProtocol) (this : MavFTP) : MavFTP :=
  {| session := session this; sequence := sequence this; incoming := incoming this;
     port := port this ++ [msg]; progress := progress this |}.

(** The state of a new instance: [session = 1], [sequence = 0]. *)
Definition new_MavFTP (script : list attempt) : MavFTP :=
  {| session := 1; sequence := 0; incoming := script; port := []; progress := [] |}.

(** ** MavFTP: building, sending and the operations *)

(** What [packet] accepts as [data]: a [Uint8Array], a string or a number. *)
Inductive packet_data : Type :=
| Bytes (data : list byte)
| Text (data : string)
| Number (data : Z).

(** [TextEncoder.encode] (UTF-8) on code units below 256: one byte below 128,
    two bytes from 128 on. *)
Definition encode_char (c : ascii) : list byte :=
  let n := Z.of_N (N_of_ascii c) in
  if n <? 128 then [low_byte n]
  else [low_byte (Z.lor 192 (Z.shiftr n 6)); low_byte (Z.lor 128 (Z.land n 63))].

Definition textEncoder_encode (s : string) : list byte :=
  flat_map encode_char (list_ascii_of_string s).

Definition string_length (s : string) : Z := Z.of_nat (String.length s).

(** The optional addressing argument of [packet] and its defaults. *)
Record targets : Type := {
  to_network : Z;
  to_system : Z;
  to_component : Z;
}.

Definition default_targets : targets :=
  {| to_network := 0; to_system := 1; to_component := 1 |}.

(** The payload object [packet] builds from the engine's sequence number and
    session id and from its arguments. *)
Definition request_payload (sequence session opcode : Z) (data : packet_data) (offset : Z)
    : FileTransferProtocolPayload :=
  {| Payload.seq := sequence;
     Payload.session := session;
     Payload.opcode := opcode;
     Payload.size :=
       match data with
       | Number n => n
       | Text s => string_length s
       | Bytes b => Z.of_nat (length b)
       end;
     Payload.reqOpcode := None;
     Payload.burstComplete := 0;
     Payload.data :=
       match data with
       | Text s => textEncoder_encode s
       | Number _ => []
       | Bytes b => b
       end;
     Payload.offset := Some offset |}.

Definition packet (opcode : Z) (data : packet_data) (offset : Z) (to : targets)
    : M FileTransferProtocol :=
  sequence ← get_sequence;
  session ← get_session;
  bytes ← lift (serialize (request_payload sequence session opcode data offset));
  mret {| targetNetwork := to_network to; targetSystem := to_system to;
          targetComponent := to_component to; payload := bytes |}.

(** [_transform] on an inbound packet whose [msgid] is that of
    FileTransferProtocol and whose payload deserializes to [payload]: the
    engine adopts the sequence number, then emits the [ftp] event. *)
Definition _transform (payload : FileTransferProtocolPayload) : M unit :=
  set_sequence (Payload.seq payload).

Section Engine.

(** The message of the error [waitForEvent] (node-mavlink-utils) rejects with
    on a timeout. *)
Variable timeout_message : string.

(** [await send(this.port, msg, this.protocol)] of node-mavlink: the message is
    handed to the port, which may reject the write. *)
Definition port_send (msg : FileTransferProtocol) : M unit := fun this =>
  match incoming this with
  | TransmitFailed m :: rest => (Throw (Error m), set_incoming rest (write_port msg this))
  | _ => (Normal tt, write_port msg this)
  end.

(** [await waitForEvent(this, 'ftp', timeout)]: the next [ftp] event, which
    [_transform] emits, or a rejection after [timeout]. A script item about a
    later transmission stays in place, and this wait times out. *)
Definition waitForEvent (timeout : Z) : M FileTransferProtocolPayload := fun this =>
  match incoming this with
  | Responded response :: rest =>
      (_ ← _transform response; mret response) (set_incoming rest this)
  | TimedOut :: rest => (Throw (Error timeout_message), set_incoming rest this)
  | _ => (Throw (Error timeout_message), this)
  end.

(** The [while (retry > 0)] loop of [send]; every iteration that does not
    leave the loop decrements [retry], so [Z.to_nat retry] is fuel enough.
    The [console.log] of a retry is not modelled. *)
Fixpoint send_loop (fuel : nat) (msg : FileTransferProtocol) (timeout retry : Z)
    : M FileTransferProtocolPayload :=
  if retry >? 0 then
    match fuel with
    | O => out_of_fuel
    | S fuel' =>
        try_catch
          (_ ← port_send msg;
           response ← waitForEvent timeout;
           _ ← set_sequence (Payload.seq response);
           mret response)
          (fun e =>
             let retry := retry - 1 in
             if retry >? 0 then send_loop fuel' msg timeout retry
             else throw (Error ("Sending MavFTP message failed: " ++ error_message e)))
    end
  else throw (Error "Did not expect to land here...").

(** [send(msg, timeout = 200, retry = 6)]; every operation calls it with the
    defaults. *)
Definition send (msg : FileTransferProtocol) (timeout retry : Z)
    : M FileTransferProtocolPayload :=
  sequence ← get_sequence;
  _ ← set_sequence (sequence + 1);
  send_loop (Z.to_nat retry) msg timeout retry.

Definition handleError (response : option FileTransferProtocolPayload) : M unit :=
  match response with
  | None => throw (Error "no response")
  | Some response =>
      if Payload.opcode response =? MavFtpOpcode.NAK then
        if option_Z_eqb (data0 response) (Some 2) then
          throw (Error ("Filesystem error (" ++ decimal (or_zero (data0 response)) ++ ")"))
        else throw (new_Error (FileTransferProtocolError.name (data0 response)))
      else mret tt
  end.

Definition resetSessions : M FileTransferProtocolPayload :=
  msg ← packet MavFtpOpcode.RESETSESSION (Bytes []) 0 default_targets;
  response ← send msg 200 6;
  _ ← handleError (Some response);
  _ ← (if Payload.opcode response =? MavFtpOpcode.ACK then set_session 2 else mret tt);
  mret response.

(** The [while (true)] loop of [listDirectory], entered with the entries
    collected so far. *)
Fixpoint listDirectory_loop (fuel : nat) (folder : string)
    (result : list MavFTPDirectoryListingEntry) : M (list MavFTPDirectoryListingEntry) :=
  match fuel with
  | O => out_of_fuel
  | S fuel' =>
      msg ← packet MavFtpOpcode.LISTDIRECTORY (Text folder) (Z.of_nat (length result))
              default_targets;
      response ← send msg 200 6;
      if Payload.opcode response =? MavFtpOpcode.ACK then
        entries ← lift (parse (Payload.data response));
        listDirectory_loop fuel' folder (result ++ entries)
      else if negb (option_Z_eqb (data0 response) (Some FileTransferProtocolError.EOF)) then
        throw (new_Error (FileTransferProtocolError.name (data0 response)))
      else mret result
  end.

Definition listDirectory (fuel : nat) (folder : string) : M (list MavFTPDirectoryListingEntry) :=
  listDirectory_loop fuel folder [].

Definition openFileRO (path : string) : M (FileTransferProtocolPayload * Z) :=
  msg ← packet MavFtpOpcode.OPENFILERO (Text path) 0 default_targets;
  response ← send msg 200 6;
  _ ← handleError (Some response);
  _ ← set_session (Payload.session response);
  size ← (if Payload.size response >? 0 then lift (readUInt32LE (Payload.data response) 0)
          else mret 0);
  mret (response, size).

Definition terminateSession : M FileTransferProtocolPayload :=
  msg ← packet MavFtpOpcode.TERMINATESESSION (Bytes []) 0 default_targets;
  response ← send msg 200 6;
  _ ← handleError (Some response);
  _ ← set_session 0;
  mret response.

(** A progress callback is observed through the calls made to it. *)
Inductive ProgressCallback : Type := onProgress.

Definition reportProgress (offset totalSize : Z) (callback : option ProgressCallback)
    : M unit := fun this =>
  match callback with
  | Some _ =>
      (Normal tt, {| session := session this; sequence := sequence this;
                     incoming := incoming this; port := port this;
                     progress := progress this ++ [(offset, totalSize)] |})
  | None => (Normal tt, this)
  end.

(** The [while (true)] loop of [readFile]. *)
Fixpoint readFile_loop (fuel : nat) (size : Z) (progressCallback : option ProgressCallback)
    (result : list byte) (offset : Z) : M (list byte) :=
  match fuel with
  | O => out_of_fuel
  | S fuel' =>
      msg ← packet MavFtpOpcode.READFILE (Number 230) offset default_targets;
      response ← send msg 200 6;
      if Payload.opcode response =? MavFtpOpcode.ACK then
        let result := result ++ Payload.data response in
        let offset := offset + Z.of_nat (length (Payload.data response)) in
        _ ← reportProgress offset size progressCallback;
        readFile_loop fuel' size progressCallback result offset
      else if option_Z_eqb (data0 response) (Some FileTransferProtocolError.EOF) then
        _ ← reportProgress size size progressCallback;
        mret result
      else
        throw (Error ("Unable to read contents of file: " ++
                      match data0 response with
                      | Some code => decimal code
                      | None => "undefined"
                      end))
  end.

Definition readFile (fuel : nat) (size : Z) (progressCallback : option ProgressCallback)
    : M (list byte) :=
  _ ← reportProgress 0 size progressCallback;
  readFile_loop fuel size progressCallback [] 0.

Definition downloadFile (fuel : nat) (filename : string) : M (list byte) :=
  '(_, size) ← openFileRO filename;
  try_finally (readFile fuel size (Some onProgress)) terminateSession.

Definition removeFile (filename : string) : M FileTransferProtocolPayload :=
  msg ← packet MavFtpOpcode.REMOVEFILE (Text filename) 0 default_targets;
  response ← send msg 200 6;
  if negb (Payload.opcode response =? MavFtpOpcode.ACK) then
    throw (new_Error (FileTransferProtocolError.name (data0 response)))
  else mret response.

End Engine.

(** ** Vocabulary of the statements, and sample data *)

(** The size value stored at byte offset 4 of a buffer (0 when the buffer has
    no such byte). *)
Definition stored_size (buffer : Buffer) : nat :=
  match buffer !! 4%nat with
  | Some b => Z.to_nat (u8 b)
  | None => 0
  end.

(** The header of a payload on the wire. *)
Definition header_of (b0 b1 b2 b3 b4 b5 b6 b8 b9 b10 b11 : byte) (data : list byte)
    : FileTransferProtocolPayload :=
  Payload.make (u8 b0 + u8 b1 * 2 ^ 8) (u8 b2) (u8 b3) (u8 b4) (Some (u8 b5)) (u8 b6)
    (Some (u8 b8 + u8 b9 * 2 ^ 8 + u8 b10 * 2 ^ 16 + u8 b11 * 2 ^ 24)) data.

(** The fields of a payload hold what their declared types say: [uint16_t]
    for [seq], [uint8_t] for [session], [opcode], [size], [reqOpcode] and
    [burstComplete], [uint32_t] for [offset]. *)
Definition payload_typed (p : FileTransferProtocolPayload) : Prop :=
  0 <= Payload.seq p <= 65535 /\
  0 <= Payload.session p <= 255 /\
  0 <= Payload.opcode p <= 255 /\
  0 <= Payload.size p <= 255 /\
  0 <= or_zero (Payload.reqOpcode p) <= 255 /\
  0 <= Payload.burstComplete p <= 255 /\
  0 <= or_zero (Payload.offset p) <= 4294967295.

(** The bytes [serialize] produces for a payload. *)
Definition wire (p : FileTransferProtocolPayload) : Buffer :=
  [low_byte (Payload.seq p); low_byte (Z.shiftr (Payload.seq p) 8);
   low_byte (Payload.session p); low_byte (Payload.opcode p);
   low_byte (Payload.size p); low_byte (or_zero (Payload.reqOpcode p));
   low_byte (Payload.burstComplete p); low_byte 0;
   low_byte (or_zero (Payload.offset p));
   low_byte (Z.shiftr (or_zero (Payload.offset p)) 8);
   low_byte (Z.shiftr (or_zero (Payload.offset p)) 16);
   low_byte (Z.shiftr (or_zero (Payload.offset p)) 24)]
  ++ Payload.data p.

Definition sample_request : FileTransferProtocolPayload :=
  {| Payload.seq := 513; Payload.session := 1; Payload.opcode := MavFtpOpcode.LISTDIRECTORY;
     Payload.size := 2; Payload.reqOpcode := Some 0; Payload.burstComplete := 0;
     Payload.offset := Some 70000; Payload.data := [x2f; x41] |}.

Definition short_buffer : Buffer :=
  [x01; x00; x00; x80; x03; x00; x00; x00; x00; x00; x00; x00; x61; x62].

Definition long_buffer : Buffer :=
  [x01; x00; x00; x80; x02; x00; x00; x00; x00; x00; x00; x00; x61; x62; x63].

Definition file_txt_entry : MavFTPDirectoryListingEntry :=
  Entry.make "file" "file.txt" (Some (Int 1234)).

Definition logs_entry : MavFTPDirectoryListingEntry :=
  Entry.make "directory" "logs" None.

(** ["F" + "file.txt" + TAB + "1234" + NUL + "D" + "logs" + NUL]. *)
Definition packed_listing : list byte :=
  bytes_of_string "F" ++ bytes_of_string "file.txt" ++ [TAB] ++ bytes_of_string "1234" ++ [NUL]
  ++ bytes_of_string "D" ++ bytes_of_string "logs" ++ [NUL].

(** The same two records, each [NUL] followed by one more byte. *)
Definition padded_listing (b1 b2 : byte) : list byte :=
  bytes_of_string "F" ++ bytes_of_string "file.txt" ++ [TAB] ++ bytes_of_string "1234"
  ++ [NUL; b1] ++ bytes_of_string "D" ++ bytes_of_string "logs" ++ [NUL; b2].

Definition sample_message : FileTransferProtocol :=
  {| targetNetwork := 0; targetSystem := 1; targetComponent := 1;
     payload := [x07; x00; x01; x02; x00; x00; x00; x00; x00; x00; x00; x00] |}.

Definition sample_response : FileTransferProtocolPayload :=
  {| Payload.seq := 77; Payload.session := 1; Payload.opcode := MavFtpOpcode.ACK;
     Payload.size := 0; Payload.reqOpcode := Some MavFtpOpcode.RESETSESSION;
     Payload.burstComplete := 0; Payload.offset := Some 0; Payload.data := [] |}.

Definition nak (code : byte) : FileTransferProtocolPayload :=
  {| Payload.seq := 78; Payload.session := 1; Payload.opcode := MavFtpOpcode.NAK;
     Payload.size := 1; Payload.reqOpcode := Some MavFtpOpcode.OPENFILERO;
     Payload.burstComplete := 0; Payload.offset := Some 0; Payload.data := [code] |}.

Definition open_ack (size : Z) (data : list byte) : FileTransferProtocolPayload :=
  {| Payload.seq := 5; Payload.session := 9; Payload.opcode := MavFtpOpcode.ACK;
     Payload.size := size; Payload.reqOpcode := Some MavFtpOpcode.OPENFILERO;
     Payload.burstComplete := 0; Payload.offset := Some 0; Payload.data := data |}.

Definition terminate_ack : FileTransferProtocolPayload :=
  {| Payload.seq := 40; Payload.session := 9; Payload.opcode := MavFtpOpcode.ACK;
     Payload.size := 0; Payload.reqOpcode := Some MavFtpOpcode.TERMINATESESSION;
     Payload.burstComplete := 0; Payload.offset := Some 0; Payload.data := [] |}.

(** The message [packet] returns with the default addressing. *)
Definition request_message (sequence session opcode : Z) (data : packet_data) (offset : Z)
    : FileTransferProtocol :=
  {| targetNetwork := 0; targetSystem := 1; targetComponent := 1;
     payload := wire (request_payload sequence session opcode data offset) |}.

(** The entries the parser returns for the data of a response. *)
Definition entries_of (response : FileTransferProtocolPayload)
    : list MavFTPDirectoryListingEntry :=
  match parse (Payload.data response) with
  | Normal entries => entries
  | _ => []
  end.

(** An ACK the engine can go on from: its sequence number is a [uint16_t]
    and its data decodes. *)
Definition listing_ack (a : FileTransferProtocolPayload) : Prop :=
  Payload.opcode a = MavFtpOpcode.ACK /\
  0 <= Payload.seq a <= 65535 /\
  parse (Payload.data a) = Normal (entries_of a).

Definition list_request (folder : string) (session sequence : Z) (count : nat)
    : FileTransferProtocol :=
  request_message sequence session MavFtpOpcode.LISTDIRECTORY (Text folder) (Z.of_nat count).

(** The requests of a listing answered by the ACKs [acks] and then by one
    more response: one request per response, each with the sequence number
    adopted from the response before it and with the running entry count as
    its offset. *)
Fixpoint list_requests (folder : string) (session sequence : Z) (count : nat)
    (acks : list FileTransferProtocolPayload) : list FileTransferProtocol :=
  list_request folder session sequence count ::
  match acks with
  | [] => []
  | a :: acks' =>
      list_requests folder session (Payload.seq a) (count + length (entries_of a)) acks'
  end.

(** The sequence number the engine holds after the responses [responses]. *)
Definition sequence_after (sequence : Z) (responses : list FileTransferProtocolPayload) : Z :=
  match last responses with
  | Some r => Payload.seq r
  | None => sequence
  end.

Definition entries_in (acks : list FileTransferProtocolPayload)
    : list MavFTPDirectoryListingEntry :=
  concat (entries_of <$> acks).

Definition listing_ack_1 : FileTransferProtocolPayload :=
  {| Payload.seq := 1; Payload.session := 1; Payload.opcode := MavFtpOpcode.ACK;
     Payload.size := 23; Payload.reqOpcode := Some MavFtpOpcode.LISTDIRECTORY;
     Payload.burstComplete := 0; Payload.offset := Some 0;
     Payload.data := padded_listing x00 x00 |}.

Definition listing_eof : FileTransferProtocolPayload :=
  {| Payload.seq := 2; Payload.session := 1; Payload.opcode := MavFtpOpcode.NAK;
     Payload.size := 1; Payload.reqOpcode := Some MavFtpOpcode.LISTDIRECTORY;
     Payload.burstComplete := 0; Payload.offset := Some 0; Payload.data := [x06] |}.

Definition terminate_request (this : MavFTP) : FileTransferProtocol :=
  request_message (sequence this) (session this) MavFtpOpcode.TERMINATESESSION (Bytes []) 0.

Definition download_script : list attempt :=
  [Responded (open_ack 0 []); Responded (nak x01); Responded (nak x04)].

Definition read_fails_script : list attempt :=
  [Responded (open_ack 0 []); Responded (nak x01); Responded terminate_ack].

(** An open acknowledged with the largest sequence number, then silence. *)
Definition overflow_script : list attempt :=
  [Responded {| Payload.seq := 65535; Payload.session := 9;
                Payload.opcode := MavFtpOpcode.ACK; Payload.size := 0;
                Payload.reqOpcode := Some MavFtpOpcode.OPENFILERO;
                Payload.burstComplete := 0; Payload.offset := Some 0;
                Payload.data := [] |}].

(** ** Further vocabulary and sample data *)

(** A request whose sequence number does not fit 16 bits. *)
Definition oversized_request : FileTransferProtocolPayload :=
  {| Payload.seq := 65536; Payload.session := 1; Payload.opcode := MavFtpOpcode.LISTDIRECTORY;
     Payload.size := 2; Payload.reqOpcode := None; Payload.burstComplete := 0;
     Payload.offset := None; Payload.data := [x2f; x41] |}.

(** What a payload reads back as: an undefined [reqOpcode] or [offset] reads
    back as 0, and the data is cut to [size] bytes. *)
Definition decoded (p : FileTransferProtocolPayload) : FileTransferProtocolPayload :=
  Payload.make (Payload.seq p) (Payload.session p) (Payload.opcode p) (Payload.size p)
    (Some (or_zero (Payload.reqOpcode p))) (Payload.burstComplete p)
    (Some (or_zero (Payload.offset p)))
    (take (Z.to_nat (Payload.size p)) (Payload.data p)).

(** The payload of the requests [readFile] sends: [size] 230 and no data. *)
Definition read_request_payload : FileTransferProtocolPayload :=
  request_payload 7 1 MavFtpOpcode.READFILE (Number 230) 0.

(** A record of a directory listing as the parser takes it: the type letter,
    the name, for a file a tab and the size text, a [NUL], and one more byte
    [pad], which state [STORE] consumes. *)
Inductive listing_record : Type :=
| FileRecord (name size : list byte) (pad : byte)
| DirectoryRecord (name : list byte) (pad : byte).

Definition encode_record (r : listing_record) : list byte :=
  match r with
  | FileRecord name size pad => x46 :: name ++ x09 :: size ++ [x00; pad]
  | DirectoryRecord name pad => x44 :: name ++ [x00; pad]
  end.

(** The bytes of a field do not contain the byte that ends it: no tab in a
    file name, no [NUL] in a size text or in a directory name. *)
Definition record_ok (r : listing_record) : Prop :=
  match r with
  | FileRecord name size _ =>
      Forall (fun b => u8 b <> 9) name /\ Forall (fun b => u8 b <> 0) size
  | DirectoryRecord name _ => Forall (fun b => u8 b <> 0) name
  end.

Definition record_entry (r : listing_record) : MavFTPDirectoryListingEntry :=
  match r with
  | FileRecord name size _ =>
      Entry.make "file" (string_of_list_byte name)
        (Some (parseInt (string_of_list_byte size)))
  | DirectoryRecord name _ => Entry.make "directory" (string_of_list_byte name) None
  end.

(** A record cut short: everything up to, at most, its [NUL]. *)
Inductive unfinished_record : Type :=
| NothingYet
| FileNameOnly (name : list byte)
| FileSizeOnly (name size : list byte)
| FileNoPad (name size : list byte)
| DirectoryNameOnly (name : list byte)
| DirectoryNoPad (name : list byte).

Definition encode_unfinished (u : unfinished_record) : list byte :=
  match u with
  | NothingYet => []
  | FileNameOnly name => x46 :: name
  | FileSizeOnly name size => x46 :: name ++ x09 :: size
  | FileNoPad name size => x46 :: name ++ x09 :: size ++ [x00]
  | DirectoryNameOnly name => x44 :: name
  | DirectoryNoPad name => x44 :: name ++ [x00]
  end.

Definition unfinished_ok (u : unfinished_record) : Prop :=
  match u with
  | NothingYet => True
  | FileNameOnly name => Forall (fun b => u8 b <> 9) name
  | FileSizeOnly name size | FileNoPad name size =>
      Forall (fun b => u8 b <> 9) name /\ Forall (fun b => u8 b <> 0) size
  | DirectoryNameOnly name | DirectoryNoPad name => Forall (fun b => u8 b <> 0) name
  end.

(** An entry is a file with a size or a directory without one. *)
Definition entry_shaped (e : MavFTPDirectoryListingEntry) : Prop :=
  (Entry.type e = "file"%string /\ is_Some (Entry.size e)) \/
  (Entry.type e = "directory"%string /\ Entry.size e = None).

(** The fewest bytes already read of the three a record takes at least, by
    parser state. *)
Definition bytes_read (state : MavFTPDirectoryListingParserState) : nat :=
  match state with
  | TYPE | FILE_NAME => 0
  | SIZE | DIR_NAME => 1
  | STORE => 2
  end.

Definition two_records : list listing_record :=
  [FileRecord (bytes_of_string "file.txt") (bytes_of_string "1234") x00;
   DirectoryRecord (bytes_of_string "logs") x00].

(** An attempt that brings no response. *)
Definition failed_attempt (a : attempt) : Prop :=
  match a with
  | Responded _ => False
  | _ => True
  end.

(** An ACK [readFile] can go on from: its sequence number is a [uint16_t]. *)
Definition read_ack (a : FileTransferProtocolPayload) : Prop :=
  Payload.opcode a = MavFtpOpcode.ACK /\ 0 <= Payload.seq a <= 65535.

Definition read_request (session sequence offset : Z) : FileTransferProtocol :=
  request_message sequence session MavFtpOpcode.READFILE (Number 230) offset.

(** The requests of a read answered by the ACKs [acks] and then by one more
    response: each asks for 230 bytes at the number of bytes received so
    far. *)
Fixpoint read_requests (session sequence offset : Z)
    (acks : list FileTransferProtocolPayload) : list FileTransferProtocol :=
  read_request session sequence offset ::
  match acks with
  | [] => []
  | a :: acks' =>
      read_requests session (Payload.seq a)
        (offset + Z.of_nat (length (Payload.data a))) acks'
  end.

(** The progress calls made after each of the ACKs [acks]. *)
Fixpoint progress_calls (size offset : Z) (acks : list FileTransferProtocolPayload)
    : list (Z * Z) :=
  match acks with
  | [] => []
  | a :: acks' =>
      let offset := offset + Z.of_nat (length (Payload.data a)) in
      (offset, size) :: progress_calls size offset acks'
  end.

(** The calls a callback sees: none when no callback was given. *)
Definition reported (callback : option ProgressCallback) (calls : list (Z * Z))
    : list (Z * Z) :=
  match callback with
  | Some _ => calls
  | None => []
  end.

Definition bytes_in (acks : list FileTransferProtocolPayload) : list byte :=
  concat (Payload.data <$> acks).

(** The text of the first data byte in the error of [readFile]. *)
Definition code_text (response : FileTransferProtocolPayload) : string :=
  match data0 response with
  | Some code => decimal code
  | None => "undefined"
  end.

Definition chunk (seq : Z) (data : list byte) : FileTransferProtocolPayload :=
  {| Payload.seq := seq; Payload.session := 9; Payload.opcode := MavFtpOpcode.ACK;
     Payload.size := Z.of_nat (length data);
     Payload.reqOpcode := Some MavFtpOpcode.READFILE; Payload.burstComplete := 0;
     Payload.offset := Some 0; Payload.data := data |}.

Definition read_eof : FileTransferProtocolPayload :=
  {| Payload.seq := 30; Payload.session := 9; Payload.opcode := MavFtpOpcode.NAK;
     Payload.size := 1; Payload.reqOpcode := Some MavFtpOpcode.READFILE;
     Payload.burstComplete := 0; Payload.offset := Some 0; Payload.data := [x06] |}.

Definition two_chunks : list FileTransferProtocolPayload :=
  [chunk 10 [x68; x65; x6c]; chunk 20 [x6c; x6f]].

Definition download_ok_script : list attempt :=
  Responded (open_ack 4 [x05; x00; x00; x00]) ::
  (Responded <$> two_chunks) ++ [Responded read_eof; Responded terminate_ack].

(** A response that is neither an ACK nor a NAK: a request of another
    station, say. *)
Definition stray_response : FileTransferProtocolPayload :=
  {| Payload.seq := 12; Payload.session := 0; Payload.opcode := MavFtpOpcode.LISTDIRECTORY;
     Payload.size := 1; Payload.reqOpcode := Some 0; Payload.burstComplete := 0;
     Payload.offset := Some 0; Payload.data := [x2f] |}.

(** The state an exchange answered at once by [r] leaves, before the
    operation sets anything. *)
Definition answered (this : MavFTP) (msg : FileTransferProtocol)
    (r : FileTransferProtocolPayload) (rest : list attempt) : MavFTP :=
  Build_MavFTP (session this) (Payload.seq r) rest (port this ++ [msg]) (progress this).

(** Every character of the string is below 128. *)
Definition is_ascii (s : string) : Prop :=
  Forall (fun c => (N_of_ascii c < 128)%N) (list_ascii_of_string s).

(** A path of 256 characters. *)
Definition long_path : string := string_of_list_ascii (repeat "a"%char 256).

(** An engine whose last response carried the largest sequence number. *)
Definition at_last_sequence : MavFTP := Build_MavFTP 1 65535 [] [] [].

(** A path with one character above 127: "/" and e-acute (233). *)
Definition accented_path : string := String "/" (String (ascii_of_N 233) EmptyString).

(** An ACK whose data starts with a byte that is no record type. *)
Definition undecodable_ack : FileTransferProtocolPayload :=
  {| Payload.seq := 3; Payload.session := 1; Payload.opcode := MavFtpOpcode.ACK;
     Payload.size := 3; Payload.reqOpcode := Some MavFtpOpcode.LISTDIRECTORY;
     Payload.burstComplete := 0; Payload.offset := Some 0;
     Payload.data := [x53; x00; x00] |}.

(** An engine with an open session, answered by one response. *)
Definition in_session (r : FileTransferProtocolPayload) : MavFTP :=
  Build_MavFTP 9 5 [Responded r] [] [].

(** * Properties *)

(** ** Bytes *)

Lemma u8_range (b : byte) : 0 <= u8 b <= 255.
Proof.
  unfold u8. pose proof (Byte.to_N_bounded b). lia.
Qed.

Lemma low_byte_u8 (b : byte) : low_byte (u8 b) = b.
Proof.
  unfold low_byte.
  replace (Z.land (u8 b) 255) with (u8 b).
  - unfold u8. rewrite N2Z.id, Byte.of_to_N. reflexivity.
  - change 255 with (Z.ones 8). rewrite Z.land_ones by lia.
    pose proof (u8_range b). rewrite Z.mod_small; lia.
Qed.

Lemma u8_low_byte (v : Z) : u8 (low_byte v) = v mod 256.
Proof.
  unfold low_byte.
  change 255 with (Z.ones 8). rewrite Z.land_ones by lia. change (2 ^ 8) with 256.
  pose proof (Z.mod_pos_bound v 256 ltac:(lia)) as Hm.
  destruct (Byte.of_N (Z.to_N (v mod 256))) as [b|] eqn:Hb.
  - apply Byte.to_of_N in Hb. unfold u8. rewrite Hb. lia.
  - apply Byte.of_N_None_iff in Hb. lia.
Qed.

Lemma u8_low_byte_small (v : Z) : 0 <= v <= 255 -> u8 (low_byte v) = v.
Proof.
  intros Hv. rewrite u8_low_byte. apply Z.mod_small. lia.
Qed.

Lemma in_range_true (v lo hi : Z) : lo <= v <= hi -> in_range v lo hi = true.
Proof.
  intros Hv. unfold in_range. apply andb_true_intro. split; apply Z.leb_le; lia.
Qed.

Lemma writeUInt8_ok (buf : Buffer) (v : Z) (offset : nat) :
  0 <= v <= 255 -> (offset < length buf)%nat ->
  writeUInt8 buf v offset = Normal (<[offset := low_byte v]> buf).
Proof.
  intros Hv Ho. unfold writeUInt8. rewrite in_range_true by lia.
  destruct (Nat.ltb_spec offset (length buf)); [reflexivity | lia].
Qed.

Lemma writeUInt16LE_ok (buf : Buffer) (v : Z) (offset : nat) :
  0 <= v <= 65535 -> (offset + 1 < length buf)%nat ->
  writeUInt16LE buf v offset =
    Normal (<[(offset + 1)%nat := low_byte (Z.shiftr v 8)]> (<[offset := low_byte v]> buf)).
Proof.
  intros Hv Ho. unfold writeUInt16LE. rewrite in_range_true by lia.
  destruct (Nat.ltb_spec (offset + 1) (length buf)); [reflexivity | lia].
Qed.

Lemma writeUInt32LE_ok (buf : Buffer) (v : Z) (offset : nat) :
  0 <= v <= 4294967295 -> (offset + 3 < length buf)%nat ->
  writeUInt32LE buf v offset =
    Normal (<[(offset + 3)%nat := low_byte (Z.shiftr v 24)]>
           (<[(offset + 2)%nat := low_byte (Z.shiftr v 16)]>
           (<[(offset + 1)%nat := low_byte (Z.shiftr v 8)]>
           (<[offset := low_byte v]> buf)))).
Proof.
  intros Hv Ho. unfold writeUInt32LE. rewrite in_range_true by lia.
  destruct (Nat.ltb_spec (offset + 3) (length buf)); [reflexivity | lia].
Qed.

(** Little-endian bytes put a number in range back together. *)
Lemma le16_join (v : Z) :
  0 <= v <= 65535 ->
  u8 (low_byte v) + u8 (low_byte (Z.shiftr v 8)) * 2 ^ 8 = v.
Proof.
  intros Hv. rewrite !u8_low_byte, Z.shiftr_div_pow2 by lia.
  change (2 ^ 8) with 256.
  Z.div_mod_to_equations. lia.
Qed.

Lemma le32_join (v : Z) :
  0 <= v <= 4294967295 ->
  u8 (low_byte v) + u8 (low_byte (Z.shiftr v 8)) * 2 ^ 8
    + u8 (low_byte (Z.shiftr v 16)) * 2 ^ 16 + u8 (low_byte (Z.shiftr v 24)) * 2 ^ 24 = v.
Proof.
  intros Hv. rewrite !u8_low_byte, !Z.shiftr_div_pow2 by lia.
  change (2 ^ 8) with 256. change (2 ^ 16) with 65536. change (2 ^ 24) with 16777216.
  Z.div_mod_to_equations. lia.
Qed.

(** ** The payload codec *)

Lemma deserialize_data_ok (buffer : Buffer) (n i : nat) :
  (12 + i + n <= length buffer)%nat ->
  deserialize_data buffer n i = Normal (take n (drop (12 + i) buffer)).
Proof.
  revert i. induction n as [|n IH]; intros i Hlen.
  - reflexivity.
  - cbn [deserialize_data]. unfold readUInt8.
    destruct (buffer !! (12 + i)%nat) as [b|] eqn:Hb.
    + rewrite (drop_S buffer b (12 + i) Hb).
      cbn. rewrite IH by lia. cbn. rewrite low_byte_u8. reflexivity.
    + apply lookup_ge_None in Hb. lia.
Qed.

Lemma deserialize_data_short (buffer : Buffer) (n i : nat) :
  (0 < n)%nat -> (length buffer < 12 + i + n)%nat ->
  deserialize_data buffer n i = Throw RangeError.
Proof.
  revert i. induction n as [|n IH]; intros i Hn Hlen.
  - lia.
  - cbn [deserialize_data]. unfold readUInt8.
    destruct (buffer !! (12 + i)%nat) as [b|] eqn:Hb.
    + apply lookup_lt_Some in Hb.
      cbn. rewrite IH; [reflexivity| lia | lia].
    + reflexivity.
Qed.

Lemma deserialize_long (b0 b1 b2 b3 b4 b5 b6 b7 b8 b9 b10 b11 : byte) (rest : list byte) :
  (Z.to_nat (u8 b4) <= length rest)%nat ->
  deserialize (b0 :: b1 :: b2 :: b3 :: b4 :: b5 :: b6 :: b7 :: b8 :: b9 :: b10 :: b11 :: rest)
  = Normal (header_of b0 b1 b2 b3 b4 b5 b6 b8 b9 b10 b11 (take (Z.to_nat (u8 b4)) rest)).
Proof.
  intros Hlen. unfold deserialize. cbn.
  rewrite deserialize_data_ok by (cbn; lia). reflexivity.
Qed.

Lemma deserialize_short (buffer : Buffer) :
  (length buffer < 12 + stored_size buffer)%nat ->
  deserialize buffer = Throw RangeError.
Proof.
  intros Hlen.
  do 12 (destruct buffer as [|? buffer]; [reflexivity|]).
  unfold stored_size in Hlen. cbn in Hlen.
  unfold deserialize. cbn.
  rewrite deserialize_data_short by (cbn; lia). reflexivity.
Qed.

Lemma serialize_data_ok (data : list byte) : forall (i : nat) (pre tail : list byte),
  length pre = (12 + i)%nat -> length tail = length data ->
  serialize_data data i (pre ++ tail) = Normal (pre ++ data).
Proof.
  induction data as [|b data IH]; intros i pre tail Hpre Htail.
  - destruct tail; [reflexivity | discriminate].
  - destruct tail as [|t tail]; [discriminate|].
    cbn [serialize_data].
    rewrite writeUInt8_ok.
    + cbn [mbind completion_bind].
      rewrite insert_app_r_alt by lia.
      replace (12 + i - length pre)%nat with 0%nat by lia.
      cbn [insert list_insert]. rewrite low_byte_u8.
      rewrite (cons_middle b pre tail), (cons_middle b pre data), !app_assoc.
      apply IH.
      * rewrite length_app. cbn. lia.
      * cbn in Htail. lia.
    + apply u8_range.
    + rewrite length_app. cbn. lia.
Qed.

Lemma serialize_ok (p : FileTransferProtocolPayload) :
  payload_typed p -> serialize p = Normal (wire p).
Proof.
  intros (Hseq & Hsession & Hopcode & Hsize & Hreq & Hburst & Hoffset).
  unfold serialize.
  change (replicate (12 + length (Payload.data p)) x00)
    with (replicate 12 x00 ++ replicate (length (Payload.data p)) x00).
  cbn [replicate app].
  rewrite writeUInt16LE_ok by (cbn; lia). cbn [mbind completion_bind].
  repeat (rewrite writeUInt8_ok by (cbn; lia); cbn [mbind completion_bind]).
  rewrite writeUInt32LE_ok by (cbn; lia). cbn [mbind completion_bind].
  cbn [insert list_insert Nat.add].
  match goal with
  | |- serialize_data _ _ (?a :: ?b :: ?c :: ?d :: ?e :: ?f :: ?g :: ?h :: ?i :: ?j :: ?k :: ?l :: ?tl) = _ =>
      change (a :: b :: c :: d :: e :: f :: g :: h :: i :: j :: k :: l :: tl)
        with ([a; b; c; d; e; f; g; h; i; j; k; l] ++ tl)
  end.
  rewrite serialize_data_ok; [reflexivity | reflexivity | apply length_replicate].
Qed.

Lemma deserialize_wire (p : FileTransferProtocolPayload) (r o : Z) :
  payload_typed p ->
  Payload.size p = Z.of_nat (length (Payload.data p)) ->
  Payload.reqOpcode p = Some r -> Payload.offset p = Some o ->
  deserialize (wire p) = Normal p.
Proof.
  intros Htyped Hsize Hr Ho.
  destruct Htyped as (Hseq & Hsession & Hopcode & Hsz & Hreq & Hburst & Hoffset).
  unfold wire. cbn [app].
  rewrite deserialize_long.
  - unfold header_of.
    rewrite le16_join, le32_join by lia.
    rewrite !u8_low_byte_small by lia.
    rewrite Hsize, Nat2Z.id, firstn_all.
    destruct p as [sq ss oc sz ro bc off dt]; cbn in *. subst. reflexivity.
  - rewrite u8_low_byte_small by lia. lia.
Qed.

(** What [deserialize] returns is typed, and its [size] is the length of its
    [data]: the shape of every response the engine sees. *)
Lemma deserialize_typed (buffer : Buffer) (p : FileTransferProtocolPayload) :
  deserialize buffer = Normal p ->
  payload_typed p /\ Payload.size p = Z.of_nat (length (Payload.data p)).
Proof.
  intros Hd.
  destruct (Nat.lt_ge_cases (length buffer) (12 + stored_size buffer)) as [Hlt|Hge].
  - rewrite deserialize_short in Hd by exact Hlt. discriminate.
  - do 12 (destruct buffer as [|? buffer]; [cbn in Hge; lia|]).
    unfold stored_size in Hge. cbn in Hge.
    rewrite deserialize_long in Hd by lia.
    injection Hd as <-. unfold payload_typed, header_of. cbn.
    rewrite length_take.
    repeat match goal with
           | |- context [u8 ?b] =>
               lazymatch goal with
               | _ : 0 <= u8 b <= 255 |- _ => fail
               | _ => pose proof (u8_range b)
               end
           end.
    repeat split; lia.
Qed.

(** C1: for every payload whose fields are within their declared integer
    types, whose [size] equals the length of its [data], with at most 251 data
    bytes and with [reqOpcode] and [offset] defined, deserializing the
    serialization of the payload returns the payload. *)
Theorem codec_round_trip (p : FileTransferProtocolPayload) (r o : Z) :
  payload_typed p ->
  Payload.size p = Z.of_nat (length (Payload.data p)) ->
  (length (Payload.data p) <= 251)%nat ->
  Payload.reqOpcode p = Some r ->
  Payload.offset p = Some o ->
  serialize p ≫= deserialize = Normal p.
Proof.
  intros Htyped Hsize _ Hr Ho.
  rewrite serialize_ok by exact Htyped.
  cbn [mbind completion_bind].
  exact (deserialize_wire p r o Htyped Hsize Hr Ho).
Qed.

Lemma codec_round_trip_witness :
  serialize sample_request ≫= deserialize = Normal sample_request.
Proof.
  apply (codec_round_trip sample_request 0 70000).
  - unfold payload_typed, sample_request, MavFtpOpcode.LISTDIRECTORY. simpl. lia.
  - reflexivity.
  - simpl. lia.
  - reflexivity.
  - reflexivity.
Defined.

(** C9: a buffer shorter than 12 plus the size stored at byte offset 4 does
    not decode, [deserialize] throws the range error of the buffer reads; a
    buffer of at least that length decodes, and the [data] of the payload is
    exactly the [size] bytes that follow offset 12. *)
Theorem deserialize_length_check (buffer : Buffer) :
  ((length buffer < 12 + stored_size buffer)%nat ->
     deserialize buffer = Throw RangeError) /\
  ((12 + stored_size buffer <= length buffer)%nat ->
     exists p, deserialize buffer = Normal p /\
       Payload.size p = Z.of_nat (stored_size buffer) /\
       Payload.data p = take (stored_size buffer) (drop 12 buffer) /\
       length (Payload.data p) = stored_size buffer).
Proof.
  split.
  - apply deserialize_short.
  - intros Hge.
    do 12 (destruct buffer as [|? buffer]; [cbn in Hge; lia|]).
    unfold stored_size in *. cbn in Hge. cbn [lookup list_lookup drop].
    rewrite deserialize_long by lia.
    eexists. split; [reflexivity|]. cbn.
    pose proof (u8_range b3).
    rewrite length_take. repeat split; lia.
Qed.

Lemma deserialize_length_check_witness :
  deserialize short_buffer = Throw RangeError /\
  exists p, deserialize long_buffer = Normal p /\
    Payload.size p = 2 /\ Payload.data p = [x61; x62] /\ length (Payload.data p) = 2%nat.
Proof.
  split.
  - apply (proj1 (deserialize_length_check short_buffer)). vm_compute. lia.
  - apply (proj2 (deserialize_length_check long_buffer)). vm_compute. lia.
Defined.

(** ** The directory-listing parser *)

(** On the packed listing the byte after the first [NUL], the ["D"], is
    consumed in state [STORE]; the parser then reads ["l"] (108) as a record
    type and throws. *)
Lemma parse_packed_listing_throws :
  parse packed_listing = Throw (Error "Unknown entry type: 108") /\
  parse packed_listing <> Normal [file_txt_entry; logs_entry].
Proof.
  assert (parse packed_listing = Throw (Error "Unknown entry type: 108")) as H
    by (vm_compute; reflexivity).
  split; [exact H|]. rewrite H. discriminate.
Qed.

(** C2, amended: when each record's [NUL] terminator is followed by one more
    byte, of any value, parsing returns exactly the file entry [file.txt] of
    size 1234 and then the directory entry [logs] of size null. *)
Theorem parse_padded_listing (b1 b2 : byte) :
  parse (padded_listing b1 b2) = Normal [file_txt_entry; logs_entry].
Proof.
  reflexivity.
Qed.

(** ** The engine: one exchange *)

Lemma bind_Normal_inv {A B} (m : M A) (f : A -> M B) (this this' : MavFTP) (b : B) :
  (m ≫= f) this = (Normal b, this') ->
  exists a this1, m this = (Normal a, this1) /\ f a this1 = (Normal b, this').
Proof.
  unfold mbind, M_bind. destruct (m this) as [[a|e|] this1]; intros H.
  - exists a, this1. split; [reflexivity | exact H].
  - discriminate.
  - discriminate.
Qed.

Lemma bind_Normal {A B} (m : M A) (f : A -> M B) (this this1 : MavFTP) (a : A) :
  m this = (Normal a, this1) -> (m ≫= f) this = f a this1.
Proof.
  intros H. unfold mbind, M_bind. rewrite H. reflexivity.
Qed.

Lemma bind_Throw {A B} (m : M A) (f : A -> M B) (this this1 : MavFTP) (e : error) :
  m this = (Throw e, this1) -> (m ≫= f) this = (Throw e, this1).
Proof.
  intros H. unfold mbind, M_bind. rewrite H. reflexivity.
Qed.

(** One iteration of the loop of [send], by what the environment does. *)
Lemma send_loop_step (tm : string) (n : nat) (msg : FileTransferProtocol)
    (timeout retry : Z) (this : MavFTP) :
  0 < retry ->
  send_loop tm (S n) msg timeout retry this =
    let sent rest := Build_MavFTP (session this) (sequence this) rest
                       (port this ++ [msg]) (progress this) in
    let again m rest :=
      if retry - 1 >? 0 then send_loop tm n msg timeout (retry - 1) (sent rest)
      else (Throw (Error ("Sending MavFTP message failed: " ++ m)), sent rest) in
    match incoming this with
    | Responded r :: rest =>
        (Normal r, Build_MavFTP (session this) (Payload.seq r) rest
                     (port this ++ [msg]) (progress this))
    | TransmitFailed m :: rest => again m rest
    | TimedOut :: rest => again tm rest
    | [] => again tm []
    end.
Proof.
  intros Hretry. cbn [send_loop].
  destruct (Z.gtb_spec retry 0) as [_|]; [|lia].
  unfold try_catch, mbind, M_bind, port_send, waitForEvent, _transform, set_sequence,
    mret, M_ret, throw, set_incoming, write_port.
  destruct (incoming this) as [|[m| |r] rest] eqn:E; cbn; rewrite ?E;
    try reflexivity; destruct (retry - 1 >? 0); reflexivity.
Qed.

Lemma send_loop_adopts (tm : string) (n : nat) (msg : FileTransferProtocol)
    (timeout : Z) : forall (retry : Z) (this this' : MavFTP) (r : FileTransferProtocolPayload),
  send_loop tm n msg timeout retry this = (Normal r, this') ->
  sequence this' = Payload.seq r.
Proof.
  induction n as [|n IH]; intros retry this this' r H.
  - cbn in H. destruct (retry >? 0); discriminate.
  - destruct (Z.gtb_spec retry 0) as [Hpos|Hneg].
    + rewrite send_loop_step in H by lia. cbv zeta in H.
      destruct (incoming this) as [|[m| |r'] rest];
        try (destruct (retry - 1 >? 0); [eapply IH; exact H | discriminate]).
      injection H as <- <-. reflexivity.
    + cbn in H. destruct (Z.gtb_spec retry 0); [lia | discriminate].
Qed.

(** C6: whenever [send] returns a response, the engine's sequence number is
    the [seq] of that response, whatever sequence number the request carried
    and whatever the engine held before. *)
Theorem send_adopts_sequence (tm : string) (msg : FileTransferProtocol) (timeout retry : Z)
    (this this' : MavFTP) (response : FileTransferProtocolPayload) :
  send tm msg timeout retry this = (Normal response, this') ->
  sequence this' = Payload.seq response.
Proof.
  unfold send. intros H.
  apply bind_Normal_inv in H as (s & this1 & _ & H).
  apply bind_Normal_inv in H as (u & this2 & _ & H).
  exact (send_loop_adopts _ _ _ _ _ _ _ _ H).
Qed.

Lemma send_loop_timeouts (tm : string) (msg : FileTransferProtocol) (timeout : Z) (n : nat) :
  forall this : MavFTP,
  Forall (fun a => a = TimedOut) (take (S n) (incoming this)) ->
  send_loop tm (S n) msg timeout (Z.of_nat (S n)) this =
    (Throw (Error ("Sending MavFTP message failed: " ++ tm)),
     Build_MavFTP (session this) (sequence this) (drop (S n) (incoming this))
       (port this ++ replicate (S n) msg) (progress this)).
Proof.
  induction n as [|n IH]; intros this Hall.
  - rewrite send_loop_step by lia. cbv zeta.
    destruct (incoming this) as [|[m| |r] rest]; cbn in *;
      try (inversion Hall; discriminate); rewrite ?drop_0; reflexivity.
  - rewrite send_loop_step by lia. cbv zeta.
    replace (Z.of_nat (S (S n)) - 1) with (Z.of_nat (S n)) by lia.
    destruct (Z.gtb_spec (Z.of_nat (S n)) 0) as [_|]; [|lia].
    destruct (incoming this) as [|[m| |r] rest] eqn:E;
      try (inversion Hall; discriminate).
    + rewrite IH by (cbn; constructor). cbn [session sequence incoming port progress].
      rewrite <- app_assoc. reflexivity.
    + rewrite IH by (cbn in *; inversion Hall; assumption).
      cbn [session sequence incoming port progress].
      rewrite <- app_assoc. reflexivity.
Qed.

(** C4: for every timeout and every retry budget of at least 1, if each of
    the attempts times out, [send] fails with the error "Sending MavFTP
    message failed: ..." and the port has been handed the same message, with
    its payload bytes and so its sequence number unchanged, exactly [retry]
    times. *)
Theorem send_retry_exhaustion (tm : string) (msg : FileTransferProtocol) (timeout retry : Z)
    (this : MavFTP) :
  1 <= retry ->
  Forall (fun a => a = TimedOut) (take (Z.to_nat retry) (incoming this)) ->
  send tm msg timeout retry this =
    (Throw (Error ("Sending MavFTP message failed: " ++ tm)),
     Build_MavFTP (session this) (sequence this + 1)
       (drop (Z.to_nat retry) (incoming this))
       (port this ++ replicate (Z.to_nat retry) msg) (progress this)).
Proof.
  intros Hretry Hall. unfold send, get_sequence, set_sequence, mbind, M_bind.
  destruct (Z.to_nat retry) as [|n] eqn:En; [lia|].
  replace retry with (Z.of_nat (S n)) by lia.
  rewrite send_loop_timeouts by exact Hall. reflexivity.
Qed.

Lemma send_retry_exhaustion_witness :
  send "Timeout" sample_message 200 3 (new_MavFTP [TimedOut; TimedOut; TimedOut; TimedOut]) =
    (Throw (Error "Sending MavFTP message failed: Timeout"),
     Build_MavFTP 1 1 [TimedOut] [sample_message; sample_message; sample_message] []).
Proof.
  apply (send_retry_exhaustion "Timeout" sample_message 200 3
           (new_MavFTP [TimedOut; TimedOut; TimedOut; TimedOut])).
  - lia.
  - simpl. repeat constructor.
Defined.

Lemma send_adopts_sequence_witness :
  sequence (snd (send "Timeout" sample_message 200 6
                   (new_MavFTP [TimedOut; Responded sample_response]))) = 77.
Proof.
  apply (send_adopts_sequence "Timeout" sample_message 200 6
           (new_MavFTP [TimedOut; Responded sample_response]) _ sample_response).
  vm_compute. reflexivity.
Defined.

(** ** Error mapping *)

(** [handleError] on a NAK whose first data byte is 10 throws the error named
    FileNotFound; on a NAK whose first data byte is 2 it throws the
    filesystem error, which is not the error the table lookup gives for
    code 2 (FailErrno). *)
Theorem handleError_mapping (response : FileTransferProtocolPayload) (this : MavFTP) :
  Payload.opcode response = MavFtpOpcode.NAK ->
  (data0 response = Some FileTransferProtocolError.FileNotFound ->
     handleError (Some response) this = (Throw (Error "FileNotFound"), this)) /\
  (data0 response = Some 2 ->
     handleError (Some response) this = (Throw (Error "Filesystem error (2)"), this) /\
     Error "Filesystem error (2)" <> new_Error (FileTransferProtocolError.name (Some 2))).
Proof.
  intros Hnak. unfold handleError. rewrite Hnak. split.
  - intros ->. reflexivity.
  - intros ->. split; [reflexivity | discriminate].
Qed.

Lemma handleError_mapping_witness :
  handleError (Some (nak x0a)) (new_MavFTP []) = (Throw (Error "FileNotFound"), new_MavFTP []) /\
  handleError (Some (nak x02)) (new_MavFTP [])
    = (Throw (Error "Filesystem error (2)"), new_MavFTP []).
Proof.
  split.
  - apply (proj1 (handleError_mapping (nak x0a) (new_MavFTP []) eq_refl)). reflexivity.
  - apply (proj2 (handleError_mapping (nak x02) (new_MavFTP []) eq_refl)). reflexivity.
Defined.

(** ** State kept across an exchange *)

Lemma packet_state {opcode data offset to this c this'} :
  packet opcode data offset to this = (c, this') -> this' = this.
Proof.
  unfold packet, get_sequence, get_session, lift, mbind, M_bind, mret, M_ret.
  destruct (serialize _); intros H; injection H as _ <-; reflexivity.
Qed.

Lemma send_loop_session (tm : string) (n : nat) (msg : FileTransferProtocol) (timeout : Z) :
  forall (retry : Z) (this this' : MavFTP) c,
  send_loop tm n msg timeout retry this = (c, this') -> session this' = session this.
Proof.
  induction n as [|n IH]; intros retry this this' c H.
  - cbn in H. destruct (retry >? 0); injection H as _ <-; reflexivity.
  - destruct (Z.gtb_spec retry 0) as [Hpos|Hneg].
    + rewrite send_loop_step in H by lia. cbv zeta in H.
      destruct (incoming this) as [|[m| |r'] rest];
        try (destruct (retry - 1 >? 0);
             [apply IH in H; exact H | injection H as _ <-; reflexivity]).
      injection H as _ <-. reflexivity.
    + cbn in H. destruct (Z.gtb_spec retry 0); [lia|].
      injection H as _ <-. reflexivity.
Qed.

Lemma send_session {tm msg timeout retry this c this'} :
  send tm msg timeout retry this = (c, this') -> session this' = session this.
Proof.
  unfold send, get_sequence, set_sequence, mbind, M_bind. intros H.
  apply send_loop_session in H. exact H.
Qed.

Lemma handleError_state {response this c this'} :
  handleError response this = (c, this') -> this' = this.
Proof.
  unfold handleError, throw, mret, M_ret.
  destruct response as [r|]; [|intros H; injection H as _ <-; reflexivity].
  destruct (Payload.opcode r =? MavFtpOpcode.NAK);
    [destruct (option_Z_eqb _ _)|]; intros H; injection H as _ <-; reflexivity.
Qed.

(** ** The session id *)

(** C8: the session id is 1 in a new engine, 2 after a [resetSessions] that
    returns an ACK, the [session] field of the response after an
    [openFileRO] that returns, and 0 after a [terminateSession] that
    returns. *)
Theorem session_lifecycle (tm : string) :
  (forall script, session (new_MavFTP script) = 1) /\
  (forall this this' response,
     resetSessions tm this = (Normal response, this') ->
     Payload.opcode response = MavFtpOpcode.ACK ->
     session this' = 2) /\
  (forall path this this' response size,
     openFileRO tm path this = (Normal (response, size), this') ->
     session this' = Payload.session response) /\
  (forall this this' response,
     terminateSession tm this = (Normal response, this') ->
     session this' = 0).
Proof.
  split; [reflexivity|]. split; [|split].
  - intros this this' response H Hack. unfold resetSessions in H.
    apply bind_Normal_inv in H as (msg & this1 & _ & H).
    apply bind_Normal_inv in H as (r & this2 & _ & H).
    apply bind_Normal_inv in H as (u & this3 & _ & H).
    apply bind_Normal_inv in H as (u' & this4 & Hset & H).
    injection H as <- <-. rewrite Hack in Hset. cbn in Hset.
    injection Hset as _ <-. reflexivity.
  - intros path this this' response size H. unfold openFileRO in H.
    apply bind_Normal_inv in H as (msg & this1 & _ & H).
    apply bind_Normal_inv in H as (r & this2 & _ & H).
    apply bind_Normal_inv in H as (u & this3 & _ & H).
    apply bind_Normal_inv in H as (u' & this4 & Hset & H).
    apply bind_Normal_inv in H as (sz & this5 & Hsize & H).
    injection H as <- <- <-.
    injection Hset as _ <-.
    destruct (Payload.size r >? 0).
    + unfold lift in Hsize. injection Hsize as _ <-. reflexivity.
    + injection Hsize as _ <-. reflexivity.
  - intros this this' response H. unfold terminateSession in H.
    apply bind_Normal_inv in H as (msg & this1 & _ & H).
    apply bind_Normal_inv in H as (r & this2 & _ & H).
    apply bind_Normal_inv in H as (u & this3 & _ & H).
    apply bind_Normal_inv in H as (u' & this4 & Hset & H).
    injection H as <- <-. injection Hset as _ <-. reflexivity.
Qed.

Lemma session_lifecycle_witness :
  session (snd (resetSessions "Timeout" (new_MavFTP [Responded sample_response]))) = 2 /\
  session (snd (openFileRO "Timeout" "/log.bin"
                  (new_MavFTP [Responded (open_ack 4 [x10; x27; x00; x00])]))) = 9 /\
  session (snd (terminateSession "Timeout" (new_MavFTP [Responded terminate_ack]))) = 0.
Proof.
  split; [|split].
  - apply (proj1 (proj2 (session_lifecycle "Timeout"%string))
             (new_MavFTP [Responded sample_response]) _ sample_response).
    + vm_compute. reflexivity.
    + reflexivity.
  - apply (proj1 (proj2 (proj2 (session_lifecycle "Timeout"%string))) "/log.bin"%string
             (new_MavFTP [Responded (open_ack 4 [x10; x27; x00; x00])]) _
             (open_ack 4 [x10; x27; x00; x00]) 10000).
    vm_compute. reflexivity.
  - apply (proj2 (proj2 (proj2 (session_lifecycle "Timeout"%string)))
             (new_MavFTP [Responded terminate_ack]) _ terminate_ack).
    vm_compute. reflexivity.
Defined.

(** ** The size of an opened file *)

Lemma handleError_ack (response : FileTransferProtocolPayload) (this : MavFTP) :
  Payload.opcode response = MavFtpOpcode.ACK ->
  handleError (Some response) this = (Normal tt, this).
Proof.
  intros Hack. unfold handleError. rewrite Hack. reflexivity.
Qed.

(** C10: in [openFileRO], an ACK whose [size] field is 0 gives the file size 0
    whatever its data; an ACK whose [size] field is above 0 gives the 32-bit
    little-endian number in its first 4 data bytes, and the read throws the
    range error when it carries fewer than 4 data bytes. *)
Theorem openFileRO_size (tm path : string) (this this2 : MavFTP) (msg : FileTransferProtocol)
    (response : FileTransferProtocolPayload) :
  packet MavFtpOpcode.OPENFILERO (Text path) 0 default_targets this = (Normal msg, this) ->
  send tm msg 200 6 this = (Normal response, this2) ->
  Payload.opcode response = MavFtpOpcode.ACK ->
  let opened := Build_MavFTP (Payload.session response) (sequence this2) (incoming this2)
                  (port this2) (progress this2) in
  (Payload.size response = 0 ->
     openFileRO tm path this = (Normal (response, 0), opened)) /\
  (0 < Payload.size response ->
     forall b0 b1 b2 b3 rest, Payload.data response = b0 :: b1 :: b2 :: b3 :: rest ->
     openFileRO tm path this =
       (Normal (response, u8 b0 + u8 b1 * 2 ^ 8 + u8 b2 * 2 ^ 16 + u8 b3 * 2 ^ 24), opened)) /\
  (0 < Payload.size response ->
     (length (Payload.data response) < 4)%nat ->
     openFileRO tm path this = (Throw RangeError, opened)).
Proof.
  intros Hpacket Hsend Hack opened.
  assert (forall k : FileTransferProtocolPayload -> M (FileTransferProtocolPayload * Z),
    (msg ← packet MavFtpOpcode.OPENFILERO (Text path) 0 default_targets;
     response ← send tm msg 200 6; _ ← handleError (Some response);
     _ ← set_session (Payload.session response); k response) this
    = k response opened) as Hrun.
  { intros k. rewrite (bind_Normal _ _ _ _ _ Hpacket), (bind_Normal _ _ _ _ _ Hsend).
    rewrite (bind_Normal _ _ _ _ _ (handleError_ack response this2 Hack)).
    reflexivity. }
  unfold openFileRO. rewrite (Hrun (fun response =>
    size ← (if Payload.size response >? 0
            then lift (readUInt32LE (Payload.data response) 0) else mret 0);
    mret (response, size))).
  split; [|split].
  - intros ->. reflexivity.
  - intros Hpos b0 b1 b2 b3 rest Hdata.
    destruct (Z.gtb_spec (Payload.size response) 0); [|lia].
    rewrite Hdata. reflexivity.
  - intros Hpos Hshort.
    destruct (Z.gtb_spec (Payload.size response) 0); [|lia].
    destruct (Payload.data response) as [|b0 [|b1 [|b2 [|b3 rest]]]];
      [reflexivity | reflexivity | reflexivity | reflexivity | cbn in Hshort; lia].
Qed.

(** ** Requests *)

Lemma packet_ok (opcode : Z) (data : packet_data) (offset : Z) (this : MavFTP) :
  payload_typed (request_payload (sequence this) (session this) opcode data offset) ->
  packet opcode data offset default_targets this =
    (Normal (request_message (sequence this) (session this) opcode data offset), this).
Proof.
  intros Htyped.
  unfold packet, get_sequence, get_session, lift, mbind, M_bind, mret, M_ret.
  rewrite serialize_ok by exact Htyped. reflexivity.
Qed.

(** The offset field on the wire, bytes 8 to 11 of a request. *)
Lemma request_offset_on_wire (sequence session opcode : Z) (data : packet_data) (offset : Z) :
  0 <= offset <= 4294967295 ->
  readUInt32LE (payload (request_message sequence session opcode data offset)) 8
  = Normal offset.
Proof.
  intros Hoffset. unfold request_message, wire, readUInt32LE. cbn.
  rewrite le32_join by lia. reflexivity.
Qed.

Lemma send_responded (tm : string) (msg : FileTransferProtocol) (timeout retry : Z)
    (this : MavFTP) (r : FileTransferProtocolPayload) (rest : list attempt) :
  0 < retry ->
  incoming this = Responded r :: rest ->
  send tm msg timeout retry this =
    (Normal r, Build_MavFTP (session this) (Payload.seq r) rest (port this ++ [msg])
                 (progress this)).
Proof.
  intros Hretry Hin. unfold send, get_sequence, set_sequence, mbind, M_bind.
  destruct (Z.to_nat retry) as [|n] eqn:En; [lia|].
  rewrite send_loop_step by lia. cbn. rewrite Hin. reflexivity.
Qed.

Lemma openFileRO_size_witness :
  openFileRO "Timeout" "/log.bin" (new_MavFTP [Responded (open_ack 0 [x07])])
    = (Normal (open_ack 0 [x07], 0),
       Build_MavFTP 9 5 [] [request_message 0 1 MavFtpOpcode.OPENFILERO (Text "/log.bin") 0] [])
  /\
  openFileRO "Timeout" "/log.bin" (new_MavFTP [Responded (open_ack 4 [x10; x27; x00; x00])])
    = (Normal (open_ack 4 [x10; x27; x00; x00], 10000),
       Build_MavFTP 9 5 [] [request_message 0 1 MavFtpOpcode.OPENFILERO (Text "/log.bin") 0] [])
  /\
  openFileRO "Timeout" "/log.bin" (new_MavFTP [Responded (open_ack 3 [x10; x27; x00])])
    = (Throw RangeError,
       Build_MavFTP 9 5 [] [request_message 0 1 MavFtpOpcode.OPENFILERO (Text "/log.bin") 0] []).
Proof.
  split; [|split].
  - apply (proj1 (openFileRO_size "Timeout" "/log.bin"
                    (new_MavFTP [Responded (open_ack 0 [x07])]) _
                    (request_message 0 1 MavFtpOpcode.OPENFILERO (Text "/log.bin") 0)
                    (open_ack 0 [x07])
                    ltac:(vm_compute; reflexivity) ltac:(vm_compute; reflexivity) eq_refl)).
    reflexivity.
  - apply (proj1 (proj2 (openFileRO_size "Timeout" "/log.bin"
                    (new_MavFTP [Responded (open_ack 4 [x10; x27; x00; x00])]) _
                    (request_message 0 1 MavFtpOpcode.OPENFILERO (Text "/log.bin") 0)
                    (open_ack 4 [x10; x27; x00; x00])
                    ltac:(vm_compute; reflexivity) ltac:(vm_compute; reflexivity) eq_refl))
             ltac:(simpl; lia) x10 x27 x00 x00 []).
    reflexivity.
  - apply (proj2 (proj2 (openFileRO_size "Timeout" "/log.bin"
                    (new_MavFTP [Responded (open_ack 3 [x10; x27; x00])]) _
                    (request_message 0 1 MavFtpOpcode.OPENFILERO (Text "/log.bin") 0)
                    (open_ack 3 [x10; x27; x00])
                    ltac:(vm_compute; reflexivity) ltac:(vm_compute; reflexivity) eq_refl))).
    + simpl. lia.
    + simpl. lia.
Defined.

(** ** Listing a directory *)

Lemma list_requests_length folder session sequence count acks :
  length (list_requests folder session sequence count acks) = S (length acks).
Proof.
  revert sequence count. induction acks as [|a acks IH]; intros sequence count.
  - reflexivity.
  - cbn. rewrite IH. reflexivity.
Qed.

Lemma list_requests_lookup folder session acks : forall sequence count k,
  (k <= length acks)%nat ->
  list_requests folder session sequence count acks !! k =
    Some (list_request folder session (sequence_after sequence (take k acks))
            (count + length (entries_in (take k acks)))).
Proof.
  induction acks as [|a acks IH]; intros sequence count k Hk.
  - cbn in Hk. replace k with 0%nat by lia. cbn.
    rewrite Nat.add_0_r. reflexivity.
  - destruct k as [|k].
    + cbn. rewrite Nat.add_0_r. reflexivity.
    + cbn [list_requests lookup list_lookup].
      change ((list_request folder session sequence count ::
               list_requests folder session (Payload.seq a)
                 (count + length (entries_of a)) acks) !! S k)
        with (list_requests folder session (Payload.seq a)
                (count + length (entries_of a)) acks !! k).
      rewrite IH by (cbn in Hk; lia).
      f_equal. unfold entries_in. cbn [take fmap list_fmap concat].
      rewrite length_app. unfold sequence_after.
      f_equal.
      * destruct (take k acks) as [|r l] eqn:E; [reflexivity|].
        change (last (a :: r :: l)) with (last (r :: l)).
        destruct (last (r :: l)) eqn:El; [reflexivity|].
        apply last_None in El. discriminate.
      * lia.
Qed.

Lemma list_request_typed (folder : string) (this : MavFTP) (count : nat) :
  0 <= session this <= 255 -> 0 <= sequence this <= 65535 ->
  (String.length folder <= 255)%nat ->
  Z.of_nat count <= 4294967295 ->
  payload_typed (request_payload (sequence this) (session this) MavFtpOpcode.LISTDIRECTORY
                   (Text folder) (Z.of_nat count)).
Proof.
  intros Hsession Hsequence Hfolder Hcount.
  unfold payload_typed, request_payload, string_length, MavFtpOpcode.LISTDIRECTORY.
  cbn. lia.
Qed.

Lemma listDirectory_loop_run (tm folder : string) :
  forall (acks : list FileTransferProtocolPayload) (fuel : nat) (this : MavFTP)
         (result : list MavFTPDirectoryListingEntry)
         (final : FileTransferProtocolPayload) (rest : list attempt),
  0 <= session this <= 255 -> 0 <= sequence this <= 65535 ->
  (String.length folder <= 255)%nat ->
  Forall listing_ack acks ->
  Z.of_nat (length result + length (entries_in acks)) <= 4294967295 ->
  Payload.opcode final <> MavFtpOpcode.ACK ->
  incoming this = (Responded <$> acks) ++ Responded final :: rest ->
  (length acks < fuel)%nat ->
  listDirectory_loop tm fuel folder result this =
    (if option_Z_eqb (data0 final) (Some FileTransferProtocolError.EOF)
     then Normal (result ++ entries_in acks)
     else Throw (new_Error (FileTransferProtocolError.name (data0 final))),
     Build_MavFTP (session this) (Payload.seq final) rest
       (port this ++ list_requests folder (session this) (sequence this) (length result) acks)
       (progress this)).
Proof.
  induction acks as [|a acks IH];
    intros fuel this result final rest Hsession Hsequence Hfolder Hacks Hcount Hfinal Hin Hfuel;
    (destruct fuel as [|fuel]; [cbn in Hfuel; lia|]); cbn [listDirectory_loop].
  - rewrite (bind_Normal _ _ _ _ _
      (packet_ok _ _ _ this (list_request_typed folder this (length result)
                               Hsession Hsequence Hfolder ltac:(lia)))).
    rewrite (bind_Normal _ _ _ _ _
      (send_responded tm _ 200 6 this final rest ltac:(lia) Hin)).
    apply Z.eqb_neq in Hfinal. rewrite Hfinal.
    unfold entries_in. cbn [fmap list_fmap concat]. rewrite app_nil_r.
    destruct (option_Z_eqb (data0 final) (Some FileTransferProtocolError.EOF)); reflexivity.
  - inversion Hacks as [|? ? (Hack & Hseq & Hparse) Hacks']; subst.
    unfold entries_in in Hcount. cbn [fmap list_fmap concat] in Hcount.
    rewrite length_app in Hcount.
    rewrite (bind_Normal _ _ _ _ _
      (packet_ok _ _ _ this (list_request_typed folder this (length result)
                               Hsession Hsequence Hfolder ltac:(lia)))).
    rewrite (bind_Normal _ _ _ _ _
      (send_responded tm _ 200 6 this a _ ltac:(lia) Hin)).
    rewrite Hack. cbn [Z.eqb MavFtpOpcode.ACK Pos.eqb].
    unfold lift at 1. unfold mbind at 1, M_bind at 1. rewrite Hparse.
    rewrite (IH fuel _ (result ++ entries_of a) final rest); cbn [session sequence incoming port progress];
      try assumption; try reflexivity.
    + unfold entries_in. cbn [fmap list_fmap concat list_requests].
      rewrite length_app, <- !app_assoc. reflexivity.
    + rewrite length_app. unfold entries_in. lia.
    + cbn in Hfuel. lia.
Qed.

Lemma option_Z_eqb_eq (x y : option Z) : option_Z_eqb x y = true <-> x = y.
Proof.
  destruct x as [a|], y as [b|]; cbn; split; intros H;
    try discriminate; try reflexivity.
  - apply Z.eqb_eq in H. subst. reflexivity.
  - injection H as ->. apply Z.eqb_refl.
Qed.

Lemma entries_in_take_le (acks : list FileTransferProtocolPayload) (k : nat) :
  (length (entries_in (take k acks)) <= length (entries_in acks))%nat.
Proof.
  rewrite <- (take_drop k acks) at 2. unfold entries_in.
  rewrite fmap_app, concat_app, length_app. lia.
Qed.

(** C5: when the responses are ACKs whose data decodes, followed by a NAK,
    [listDirectory] sends one request per response, the request after [k]
    ACKs carrying as offset the number of entries decoded from those [k]
    ACKs; if the first data byte of the NAK is EOF (6) it stops there,
    leaving the rest of the responses unread, and returns the entries of the
    ACKs concatenated in the order received; if it is not EOF,
    [listDirectory] throws. *)
Theorem listDirectory_pagination (tm folder : string) (this : MavFTP)
    (acks : list FileTransferProtocolPayload) (final : FileTransferProtocolPayload)
    (rest : list attempt) (fuel : nat) :
  0 <= session this <= 255 -> 0 <= sequence this <= 65535 ->
  (String.length folder <= 255)%nat ->
  Forall listing_ack acks ->
  Z.of_nat (length (entries_in acks)) <= 4294967295 ->
  Payload.opcode final = MavFtpOpcode.NAK ->
  incoming this = (Responded <$> acks) ++ Responded final :: rest ->
  (length acks < fuel)%nat ->
  let sent := list_requests folder (session this) (sequence this) 0 acks in
  let this' := Build_MavFTP (session this) (Payload.seq final) rest (port this ++ sent)
                 (progress this) in
  (data0 final = Some FileTransferProtocolError.EOF ->
     listDirectory tm fuel folder this = (Normal (entries_in acks), this')) /\
  (data0 final <> Some FileTransferProtocolError.EOF ->
     listDirectory tm fuel folder this =
       (Throw (new_Error (FileTransferProtocolError.name (data0 final))), this')) /\
  length sent = S (length acks) /\
  (forall k, (k <= length acks)%nat ->
     exists msg, sent !! k = Some msg /\
       msg = list_request folder (session this) (sequence_after (sequence this) (take k acks))
               (length (entries_in (take k acks))) /\
       readUInt32LE (payload msg) 8 = Normal (Z.of_nat (length (entries_in (take k acks))))).
Proof.
  intros Hsession Hsequence Hfolder Hacks Hcount Hnak Hin Hfuel sent this'.
  assert (Payload.opcode final <> MavFtpOpcode.ACK) as Hfinal
    by (rewrite Hnak; discriminate).
  pose proof (listDirectory_loop_run tm folder acks fuel this [] final rest
                Hsession Hsequence Hfolder Hacks Hcount Hfinal Hin Hfuel) as Hrun.
  fold (listDirectory tm fuel folder) in Hrun. cbn [length app] in Hrun.
  fold sent in Hrun. fold this' in Hrun.
  repeat split.
  - intros Heof. apply option_Z_eqb_eq in Heof. rewrite Heof in Hrun. exact Hrun.
  - intros Hne. destruct (option_Z_eqb (data0 final) (Some FileTransferProtocolError.EOF)) eqn:E.
    + apply option_Z_eqb_eq in E. contradiction.
    + exact Hrun.
  - apply list_requests_length.
  - intros k Hk. eexists. split; [|split].
    + unfold sent. rewrite list_requests_lookup by exact Hk. reflexivity.
    + reflexivity.
    + apply request_offset_on_wire. pose proof (entries_in_take_le acks k). lia.
Qed.

Lemma listDirectory_pagination_witness :
  listDirectory "Timeout" 2 "/" (new_MavFTP [Responded listing_ack_1; Responded listing_eof])
  = (Normal [file_txt_entry; logs_entry],
     Build_MavFTP 1 2 [] [list_request "/" 1 0 0; list_request "/" 1 1 2] []).
Proof.
  apply (proj1 (listDirectory_pagination "Timeout" "/"
           (new_MavFTP [Responded listing_ack_1; Responded listing_eof])
           [listing_ack_1] listing_eof [] 2
           ltac:(simpl; lia) ltac:(simpl; lia) ltac:(simpl; lia)
           ltac:(repeat constructor; simpl; lia)
           ltac:(vm_compute; discriminate) eq_refl eq_refl ltac:(simpl; lia))).
  reflexivity.
Defined.

(** ** Downloading a file *)

Lemma send_loop_transmits (tm : string) (msg : FileTransferProtocol) (timeout : Z) (fuel : nat) :
  forall (retry : Z) (this this' : MavFTP) (c : completion FileTransferProtocolPayload),
  0 < retry -> (Z.to_nat retry <= fuel)%nat ->
  send_loop tm fuel msg timeout retry this = (c, this') ->
  c <> OutOfFuel /\ exists k, port this' = port this ++ replicate (S k) msg.
Proof.
  induction fuel as [|fuel IH]; intros retry this this' c Hretry Hfuel H; [lia|].
  rewrite send_loop_step in H by exact Hretry. cbv zeta in H.
  assert (forall m rest,
    (if retry - 1 >? 0
     then send_loop tm fuel msg timeout (retry - 1)
            (Build_MavFTP (session this) (sequence this) rest (port this ++ [msg])
               (progress this))
     else (Throw (Error ("Sending MavFTP message failed: " ++ m)),
           Build_MavFTP (session this) (sequence this) rest (port this ++ [msg])
             (progress this))) = (c, this') ->
    c <> OutOfFuel /\ exists k, port this' = port this ++ replicate (S k) msg) as Hagain.
  { intros m rest Hm. destruct (Z.gtb_spec (retry - 1) 0) as [Hmore|Hlast].
    - apply IH in Hm as (Hc & k & Hport); [|lia|lia].
      split; [exact Hc|]. exists (S k). rewrite Hport. cbn [port replicate].
      rewrite <- app_assoc. reflexivity.
    - injection Hm as <- <-. split; [discriminate|]. exists 0%nat. reflexivity. }
  destruct (incoming this) as [|[m| |r] rest]; try (eapply Hagain; exact H).
  injection H as <- <-. split; [discriminate|]. exists 0%nat. reflexivity.
Qed.

Lemma send_transmits (tm : string) (msg : FileTransferProtocol) (timeout retry : Z)
    (this this' : MavFTP) (c : completion FileTransferProtocolPayload) :
  0 < retry ->
  send tm msg timeout retry this = (c, this') ->
  c <> OutOfFuel /\ exists k, port this' = port this ++ replicate (S k) msg.
Proof.
  intros Hretry H. unfold send, get_sequence, set_sequence, mbind, M_bind in H.
  apply send_loop_transmits in H; [exact H | exact Hretry | lia].
Qed.

Lemma send_loop_consumes (tm : string) (msg : FileTransferProtocol) (timeout : Z) (fuel : nat) :
  forall (retry : Z) (this this' : MavFTP) (r : FileTransferProtocolPayload),
  send_loop tm fuel msg timeout retry this = (Normal r, this') ->
  (length (incoming this') < length (incoming this))%nat.
Proof.
  induction fuel as [|fuel IH]; intros retry this this' r H.
  - cbn in H. destruct (retry >? 0); discriminate.
  - destruct (Z.gtb_spec retry 0) as [Hpos|Hneg].
    + rewrite send_loop_step in H by lia. cbv zeta in H.
      destruct (incoming this) as [|[m| |r'] rest];
        try (destruct (retry - 1 >? 0); [apply IH in H; cbn in *; lia | discriminate]).
      injection H as _ <-. cbn. lia.
    + cbn in H. destruct (Z.gtb_spec retry 0); [lia | discriminate].
Qed.

Lemma send_consumes (tm : string) (msg : FileTransferProtocol) (timeout retry : Z)
    (this this' : MavFTP) (r : FileTransferProtocolPayload) :
  send tm msg timeout retry this = (Normal r, this') ->
  (length (incoming this') < length (incoming this))%nat.
Proof.
  unfold send, get_sequence, set_sequence, mbind, M_bind. intros H.
  apply send_loop_consumes in H. exact H.
Qed.

Lemma writeUInt8_ends (buf : Buffer) (v : Z) (offset : nat) :
  writeUInt8 buf v offset <> OutOfFuel.
Proof.
  unfold writeUInt8. destruct (negb _); [discriminate|].
  destruct (negb _); discriminate.
Qed.

Lemma bind_ends {A B} (c : completion A) (f : A -> completion B) :
  c <> OutOfFuel -> (forall x, f x <> OutOfFuel) -> c ≫= f <> OutOfFuel.
Proof.
  intros Hc Hf. destruct c; [apply Hf | discriminate | contradiction].
Qed.

Lemma serialize_data_ends (data : list byte) : forall (i : nat) (result : Buffer),
  serialize_data data i result <> OutOfFuel.
Proof.
  induction data as [|b data IH]; intros i result; [discriminate|].
  cbn [serialize_data]. apply bind_ends; [apply writeUInt8_ends | intros x; apply IH].
Qed.

Lemma serialize_ends (p : FileTransferProtocolPayload) : serialize p <> OutOfFuel.
Proof.
  unfold serialize.
  apply bind_ends.
  { unfold writeUInt16LE. destruct (negb _); [discriminate|].
    destruct (negb _); discriminate. }
  intros r1. do 6 (apply bind_ends; [apply writeUInt8_ends | intros ?]).
  apply bind_ends.
  { unfold writeUInt32LE. destruct (negb _); [discriminate|].
    destruct (negb _); discriminate. }
  intros r2. apply serialize_data_ends.
Qed.

Lemma packet_ends {opcode data offset to this c this'} :
  packet opcode data offset to this = (c, this') -> c <> OutOfFuel.
Proof.
  unfold packet, get_sequence, get_session, lift, mbind, M_bind, mret, M_ret.
  pose proof (serialize_ends (request_payload (sequence this) (session this) opcode data offset))
    as Hs.
  destruct (serialize _); intros H; injection H as <- _; [discriminate | discriminate | contradiction].
Qed.

(** Each iteration of the loop of [readFile] that goes on has taken a
    response from the environment: more fuel than the script has items is
    enough. *)
Lemma readFile_loop_ends (tm : string) (size : Z) (callback : option ProgressCallback)
    (fuel : nat) : forall (result : list byte) (offset : Z) (this : MavFTP),
  (length (incoming this) < fuel)%nat ->
  fst (readFile_loop tm fuel size callback result offset this) <> OutOfFuel.
Proof.
  induction fuel as [|fuel IH]; intros result offset this Hfuel; [lia|].
  cbn [readFile_loop].
  destruct (packet MavFtpOpcode.READFILE (Number 230) offset default_targets this)
    as [[msg|e|] this0] eqn:Ep.
  - pose proof (packet_state Ep) as ->.
    rewrite (bind_Normal _ _ _ _ _ Ep).
    destruct (send tm msg 200 6 this) as [[r|e|] this1] eqn:Es.
    + rewrite (bind_Normal _ _ _ _ _ Es).
      pose proof (send_consumes _ _ _ _ _ _ _ Es) as Hless.
      destruct (Payload.opcode r =? MavFtpOpcode.ACK).
      * destruct callback; unfold mbind, M_bind, reportProgress; apply IH; cbn; lia.
      * destruct (option_Z_eqb _ _); [|discriminate].
        destruct callback; discriminate.
    + rewrite (bind_Throw _ _ _ _ _ Es). discriminate.
    + exfalso. apply (send_transmits tm msg 200 6 this this1 OutOfFuel ltac:(lia)) in Es.
      destruct Es as [Hc _]. contradiction.
  - rewrite (bind_Throw _ _ _ _ _ Ep). discriminate.
  - exfalso. exact (packet_ends Ep eq_refl).
Qed.

Lemma readFile_ends (tm : string) (size : Z) (callback : option ProgressCallback)
    (fuel : nat) (this : MavFTP) :
  (length (incoming this) < fuel)%nat ->
  fst (readFile tm fuel size callback this) <> OutOfFuel.
Proof.
  intros Hfuel. unfold readFile.
  destruct callback; unfold mbind, M_bind, reportProgress; apply readFile_loop_ends; cbn; lia.
Qed.

(** With the engine's session id and sequence number within their types,
    [terminateSession] hands its request to the port at least once, and
    returns or throws. *)
Lemma terminateSession_transmits (tm : string) (this : MavFTP) :
  0 <= session this <= 255 -> 0 <= sequence this <= 65535 ->
  exists c this' k,
    terminateSession tm this = (c, this') /\ c <> OutOfFuel /\
    port this' = port this ++ replicate (S k) (terminate_request this).
Proof.
  intros Hsession Hsequence. unfold terminateSession.
  rewrite (bind_Normal _ _ _ _ _ (packet_ok MavFtpOpcode.TERMINATESESSION (Bytes []) 0 this
    ltac:(unfold payload_typed, request_payload, MavFtpOpcode.TERMINATESESSION; cbn; lia))).
  fold (terminate_request this).
  destruct (send tm (terminate_request this) 200 6 this) as [c1 this1] eqn:Esend.
  destruct (send_transmits tm _ 200 6 this this1 c1 ltac:(lia) Esend) as (Hc1 & k & Hport).
  destruct c1 as [r|e|]; [| |contradiction].
  - rewrite (bind_Normal _ _ _ _ _ Esend).
    destruct (handleError (Some r) this1) as [c2 this2] eqn:Eh.
    pose proof (handleError_state Eh) as ->.
    destruct c2 as [[]|e|].
    + rewrite (bind_Normal _ _ _ _ _ Eh). eexists _, _, k. split; [reflexivity|].
      split; [discriminate | exact Hport].
    + rewrite (bind_Throw _ _ _ _ _ Eh). eexists _, _, k. split; [reflexivity|].
      split; [discriminate | exact Hport].
    + exfalso. unfold handleError, throw, mret, M_ret in Eh.
      destruct (Payload.opcode r =? MavFtpOpcode.NAK);
        [destruct (option_Z_eqb _ _)|]; discriminate.
  - rewrite (bind_Throw _ _ _ _ _ Esend). eexists _, _, k. split; [reflexivity|].
    split; [discriminate | exact Hport].
Qed.

(** C3, amended: after a successful open, [downloadFile] runs the terminate
    step however the read step ends, and with the engine's session id and
    sequence number within their types the terminate request is handed to the
    port after everything the read step sent; [downloadFile] ends as the read
    step did when the terminate step returns, and with the terminate step's
    error when the terminate step throws, also when the read step has thrown. *)
Theorem downloadFile_terminates_session (tm : string) (fuel : nat) (filename : string)
    (this this1 this2 : MavFTP) (response : FileTransferProtocolPayload) (size : Z)
    (c : completion (list byte)) :
  openFileRO tm filename this = (Normal (response, size), this1) ->
  (length (incoming this1) < fuel)%nat ->
  readFile tm fuel size (Some onProgress) this1 = (c, this2) ->
  0 <= session this2 <= 255 -> 0 <= sequence this2 <= 65535 ->
  exists c3 this3 k,
    terminateSession tm this2 = (c3, this3) /\
    port this3 = port this2 ++ replicate (S k) (terminate_request this2) /\
    downloadFile tm fuel filename this =
      (match c3 with
       | Normal _ => c
       | Throw e => Throw e
       | OutOfFuel => OutOfFuel
       end, this3) /\
    c <> OutOfFuel /\ c3 <> OutOfFuel.
Proof.
  intros Hopen Hfuel Hread Hsession Hsequence.
  pose proof (readFile_ends tm size (Some onProgress) fuel this1 Hfuel) as Hc.
  rewrite Hread in Hc. cbn [fst] in Hc.
  destruct (terminateSession_transmits tm this2 Hsession Hsequence)
    as (c3 & this3 & k & Hterm & Hc3 & Hport).
  exists c3, this3, k. split; [exact Hterm|]. split; [exact Hport|].
  split; [|split; [exact Hc | exact Hc3]].
  unfold downloadFile. rewrite (bind_Normal _ _ _ _ _ Hopen).
  unfold try_finally. rewrite Hread, Hterm.
  destruct c as [v|e|]; [| |contradiction]; destruct c3; reflexivity.
Qed.

(** When the read step and the terminate step both fail, the caller gets the
    terminate step's error, not the read step's. *)
Lemma downloadFile_surfaces_terminate_error :
  fst (openFileRO "Timeout" "/log.bin" (new_MavFTP download_script))
    = Normal (open_ack 0 [], 0) /\
  fst (readFile "Timeout" 3 0 (Some onProgress)
         (snd (openFileRO "Timeout" "/log.bin" (new_MavFTP download_script))))
    = Throw (Error "Unable to read contents of file: 1") /\
  fst (downloadFile "Timeout" 3 "/log.bin" (new_MavFTP download_script))
    = Throw (Error "InvalidSession") /\
  fst (downloadFile "Timeout" 3 "/log.bin" (new_MavFTP download_script))
    <> Throw (Error "Unable to read contents of file: 1").
Proof.
  assert (fst (downloadFile "Timeout" 3 "/log.bin" (new_MavFTP download_script))
          = Throw (Error "InvalidSession")) as H by (vm_compute; reflexivity).
  repeat split; try (vm_compute; reflexivity); try exact H.
  rewrite H. discriminate.
Qed.

Lemma downloadFile_terminates_session_witness :
  let this := new_MavFTP read_fails_script in
  let this1 := snd (openFileRO "Timeout" "/log.bin" this) in
  let this2 := snd (readFile "Timeout" 3 0 (Some onProgress) this1) in
  exists c3 this3 k,
    terminateSession "Timeout" this2 = (c3, this3) /\
    port this3 = port this2 ++ replicate (S k) (terminate_request this2) /\
    downloadFile "Timeout" 3 "/log.bin" this =
      (match c3 with
       | Normal _ => Throw (Error "Unable to read contents of file: 1")
       | Throw e => Throw e
       | OutOfFuel => OutOfFuel
       end, this3) /\
    Throw (Error "Unable to read contents of file: 1") <> @OutOfFuel (list byte) /\
    c3 <> OutOfFuel.
Proof.
  intros this this1 this2.
  apply (downloadFile_terminates_session "Timeout" 3 "/log.bin" this this1 this2
           (open_ack 0 []) 0 (Throw (Error "Unable to read contents of file: 1"))).
  - vm_compute. reflexivity.
  - vm_compute. lia.
  - vm_compute. reflexivity.
  - vm_compute. split; discriminate.
  - vm_compute. split; discriminate.
Defined.

(** The sequence number is incremented without wrapping: when the exchange
    that follows a response with [seq] 65535 fails, the engine holds 65536
    and the next request cannot be serialized. Here the read step fails so,
    and no terminate request reaches the port. *)
Lemma downloadFile_sequence_overflow :
  downloadFile "Timeout" 3 "/log.bin" (new_MavFTP overflow_script) =
    (Throw RangeError,
     Build_MavFTP 9 65536 []
       (request_message 0 1 MavFtpOpcode.OPENFILERO (Text "/log.bin") 0 ::
        replicate 6 (request_message 65535 9 MavFtpOpcode.READFILE (Number 230) 0))
       [(0, 0)]).
Proof.
  vm_compute. reflexivity.
Qed.

(** * Further properties of the code *)

(** ** The payload codec: range checks, defaults and what decoding reads *)

Lemma in_range_false (v lo hi : Z) : ~ (lo <= v <= hi) -> in_range v lo hi = false.
Proof.
  intros Hv. unfold in_range.
  destruct (Z.leb_spec lo v); destruct (Z.leb_spec v hi); try reflexivity. lia.
Qed.

Lemma writeUInt8_throws (buf : Buffer) (v : Z) (offset : nat) :
  ~ (0 <= v <= 255) -> writeUInt8 buf v offset = Throw RangeError.
Proof.
  intros Hv. unfold writeUInt8. rewrite in_range_false by exact Hv. reflexivity.
Qed.

Lemma writeUInt16LE_throws (buf : Buffer) (v : Z) (offset : nat) :
  ~ (0 <= v <= 65535) -> writeUInt16LE buf v offset = Throw RangeError.
Proof.
  intros Hv. unfold writeUInt16LE. rewrite in_range_false by exact Hv. reflexivity.
Qed.

Lemma writeUInt32LE_throws (buf : Buffer) (v : Z) (offset : nat) :
  ~ (0 <= v <= 4294967295) -> writeUInt32LE buf v offset = Throw RangeError.
Proof.
  intros Hv. unfold writeUInt32LE. rewrite in_range_false by exact Hv. reflexivity.
Qed.

Lemma serialize_cases (p : FileTransferProtocolPayload) :
  (payload_typed p /\ serialize p = Normal (wire p)) \/
  (~ payload_typed p /\ serialize p = Throw RangeError).
Proof.
  destruct (decide (0 <= Payload.seq p <= 65535)) as [Hseq|Hseq];
  [destruct (decide (0 <= Payload.session p <= 255)) as [Hsession|Hsession];
   [destruct (decide (0 <= Payload.opcode p <= 255)) as [Hopcode|Hopcode];
    [destruct (decide (0 <= Payload.size p <= 255)) as [Hsize|Hsize];
     [destruct (decide (0 <= or_zero (Payload.reqOpcode p) <= 255)) as [Hreq|Hreq];
      [destruct (decide (0 <= Payload.burstComplete p <= 255)) as [Hburst|Hburst];
       [destruct (decide (0 <= or_zero (Payload.offset p) <= 4294967295))
          as [Hoffset|Hoffset] | ] | ] | ] | ] | ] | ].
  1: { left. assert (payload_typed p) as Ht by (unfold payload_typed; tauto).
       split; [exact Ht | apply serialize_ok; exact Ht]. }
  all: right; split; [unfold payload_typed; tauto|].
  all: unfold serialize;
    change (replicate (12 + length (Payload.data p)) x00)
      with (replicate 12 x00 ++ replicate (length (Payload.data p)) x00);
    cbn [replicate app];
    first [ rewrite writeUInt16LE_throws by assumption; reflexivity
          | rewrite writeUInt16LE_ok by (cbn; lia); cbn [mbind completion_bind] ];
    repeat first
      [ rewrite writeUInt8_throws by assumption; reflexivity
      | rewrite writeUInt8_ok by (cbn; lia); cbn [mbind completion_bind] ];
    rewrite writeUInt32LE_throws by assumption; reflexivity.
Qed.

(** [serialize] returns exactly when every field of the payload fits the
    width it is written with, and then the buffer has 12 bytes and the data;
    with any field outside its width it throws the range error. *)
Theorem serialize_range_checks (p : FileTransferProtocolPayload) :
  (payload_typed p ->
     exists buffer, serialize p = Normal buffer /\
       length buffer = (12 + length (Payload.data p))%nat) /\
  (~ payload_typed p -> serialize p = Throw RangeError).
Proof.
  split.
  - intros Ht. exists (wire p). split; [apply serialize_ok; exact Ht|].
    unfold wire. rewrite length_app. reflexivity.
  - intros Hn. destruct (serialize_cases p) as [[Ht _]|[_ H]]; [contradiction | exact H].
Qed.

Lemma serialize_range_checks_witness :
  (exists buffer, serialize sample_request = Normal buffer /\ length buffer = 14%nat) /\
  serialize oversized_request = Throw RangeError.
Proof.
  split.
  - apply (proj1 (serialize_range_checks sample_request)).
    unfold payload_typed, sample_request, MavFtpOpcode.LISTDIRECTORY. simpl. lia.
  - apply (proj2 (serialize_range_checks oversized_request)).
    unfold payload_typed, oversized_request. simpl. lia.
Defined.

Lemma wire_stored_size (p : FileTransferProtocolPayload) :
  payload_typed p -> stored_size (wire p) = Z.to_nat (Payload.size p).
Proof.
  intros (_ & _ & _ & Hsize & _). unfold stored_size, wire. cbn.
  rewrite u8_low_byte_small by lia. reflexivity.
Qed.

(** Decoding what [serialize] wrote: when [size] is at most the number of data
    bytes the payload comes back with the data cut to [size] bytes and with an
    undefined [reqOpcode] or [offset] read as 0; when [size] is larger than
    the data, decoding throws the range error. *)
Theorem serialize_then_deserialize (p : FileTransferProtocolPayload) :
  payload_typed p ->
  ((Z.to_nat (Payload.size p) <= length (Payload.data p))%nat ->
     serialize p ≫= deserialize = Normal (decoded p)) /\
  ((length (Payload.data p) < Z.to_nat (Payload.size p))%nat ->
     serialize p ≫= deserialize = Throw RangeError).
Proof.
  intros Htyped. rewrite serialize_ok by exact Htyped. cbn [mbind completion_bind].
  pose proof (wire_stored_size p Htyped) as Hstored.
  destruct Htyped as (Hseq & Hsession & Hopcode & Hsz & Hreq & Hburst & Hoffset).
  split.
  - intros Hfit. unfold wire. cbn [app].
    rewrite deserialize_long by (rewrite u8_low_byte_small by lia; exact Hfit).
    unfold header_of, decoded.
    rewrite le16_join, le32_join by lia.
    rewrite !u8_low_byte_small by lia. reflexivity.
  - intros Hshort. apply deserialize_short. rewrite Hstored.
    unfold wire. rewrite length_app. cbn [length]. lia.
Qed.

Lemma serialize_then_deserialize_witness :
  serialize sample_request ≫= deserialize = Normal (decoded sample_request) /\
  serialize read_request_payload ≫= deserialize = Throw RangeError.
Proof.
  split.
  - apply (proj1 (serialize_then_deserialize sample_request
      ltac:(unfold payload_typed, sample_request, MavFtpOpcode.LISTDIRECTORY; simpl; lia))).
    simpl. lia.
  - apply (proj2 (serialize_then_deserialize read_request_payload
      ltac:(unfold payload_typed, read_request_payload, request_payload,
              MavFtpOpcode.READFILE; simpl; lia))).
    simpl. lia.
Defined.

Lemma stored_size_insert_reserved (buffer : Buffer) (b : byte) :
  stored_size (<[7%nat := b]> buffer) = stored_size buffer.
Proof.
  unfold stored_size. rewrite list_lookup_insert_ne by lia. reflexivity.
Qed.

(** [deserialize] reads the header except its reserved byte 7, and [size] data
    bytes: bytes after them, and the value of byte 7, never change what is
    decoded. *)
Theorem deserialize_reads_header_and_data (buffer : Buffer) :
  (forall extra, (12 + stored_size buffer <= length buffer)%nat ->
     deserialize (buffer ++ extra) = deserialize buffer) /\
  (forall b, deserialize (<[7%nat := b]> buffer) = deserialize buffer).
Proof.
  split.
  - intros extra Hlen.
    do 12 (destruct buffer as [|? buffer]; [cbn in Hlen; lia|]).
    unfold stored_size in Hlen. cbn in Hlen. cbn [app].
    rewrite !deserialize_long by (try rewrite length_app; lia).
    rewrite take_app_le by lia. reflexivity.
  - intros b.
    destruct (Nat.lt_ge_cases (length buffer) (12 + stored_size buffer)) as [Hlt|Hge].
    + rewrite (deserialize_short buffer Hlt).
      apply deserialize_short. rewrite stored_size_insert_reserved, length_insert. exact Hlt.
    + do 12 (destruct buffer as [|? buffer]; [cbn in Hge; lia|]).
      unfold stored_size in Hge. cbn in Hge. cbn [insert list_insert].
      rewrite !deserialize_long by lia. reflexivity.
Qed.

Lemma deserialize_reads_header_and_data_witness :
  deserialize (long_buffer ++ [xff; xfe]) = deserialize long_buffer.
Proof.
  apply (proj1 (deserialize_reads_header_and_data long_buffer)). vm_compute. lia.
Defined.

Lemma deserialize_typed_witness :
  payload_typed (decoded sample_request) /\
  Payload.size (decoded sample_request)
    = Z.of_nat (length (Payload.data (decoded sample_request))).
Proof.
  apply (deserialize_typed (wire sample_request)). vm_compute. reflexivity.
Defined.

(** ** The directory-listing parser on any input *)

Lemma append_nil_r (s : string) : (s ++ "")%string = s.
Proof.
  induction s as [|c s IH]; [reflexivity|]. cbn. rewrite IH. reflexivity.
Qed.

Lemma append_assoc (s t u : string) : ((s ++ t) ++ u)%string = (s ++ (t ++ u))%string.
Proof.
  induction s as [|c s IH]; [reflexivity|]. cbn. rewrite IH. reflexivity.
Qed.

Lemma append_char (s : string) (b : byte) (l : list byte) :
  ((s ++ fromCharCode b) ++ string_of_list_byte l)%string
  = (s ++ string_of_list_byte (b :: l))%string.
Proof.
  rewrite append_assoc. reflexivity.
Qed.

Lemma parse_loop_file_name (name rest : list byte) : forall entry result,
  Forall (fun b => u8 b <> 9) name ->
  parse_loop (name ++ rest) FILE_NAME entry result =
    parse_loop rest FILE_NAME
      {| acc_type := acc_type entry;
         acc_name := acc_name entry ++ string_of_list_byte name;
         acc_size := acc_size entry |} result.
Proof.
  induction name as [|b name IH]; intros entry result Hname.
  - cbn [app string_of_list_byte map string_of_list_ascii].
    rewrite append_nil_r. destruct entry; reflexivity.
  - inversion Hname as [|? ? Hb Hname']; subst.
    cbn [app parse_loop]. apply Z.eqb_neq in Hb. rewrite Hb.
    rewrite IH by exact Hname'. cbn [acc_type acc_name acc_size].
    rewrite append_char. reflexivity.
Qed.

Lemma parse_loop_size (size rest : list byte) : forall entry result,
  Forall (fun b => u8 b <> 0) size ->
  parse_loop (size ++ rest) SIZE entry result =
    parse_loop rest SIZE
      {| acc_type := acc_type entry; acc_name := acc_name entry;
         acc_size := acc_size entry ++ string_of_list_byte size |} result.
Proof.
  induction size as [|b size IH]; intros entry result Hsize.
  - cbn [app string_of_list_byte map string_of_list_ascii].
    rewrite append_nil_r. destruct entry; reflexivity.
  - inversion Hsize as [|? ? Hb Hsize']; subst.
    cbn [app parse_loop]. apply Z.eqb_neq in Hb. rewrite Hb.
    rewrite IH by exact Hsize'. cbn [acc_type acc_name acc_size].
    rewrite append_char. reflexivity.
Qed.

Lemma parse_loop_dir_name (name rest : list byte) : forall entry result,
  Forall (fun b => u8 b <> 0) name ->
  parse_loop (name ++ rest) DIR_NAME entry result =
    parse_loop rest DIR_NAME
      {| acc_type := acc_type entry;
         acc_name := acc_name entry ++ string_of_list_byte name;
         acc_size := acc_size entry |} result.
Proof.
  induction name as [|b name IH]; intros entry result Hname.
  - cbn [app string_of_list_byte map string_of_list_ascii].
    rewrite append_nil_r. destruct entry; reflexivity.
  - inversion Hname as [|? ? Hb Hname']; subst.
    cbn [app parse_loop]. apply Z.eqb_neq in Hb. rewrite Hb.
    rewrite IH by exact Hname'. cbn [acc_type acc_name acc_size].
    rewrite append_char. reflexivity.
Qed.

Lemma parse_loop_record (r : listing_record) (rest : list byte)
    (result : list MavFTPDirectoryListingEntry) :
  record_ok r ->
  parse_loop (encode_record r ++ rest) TYPE empty_entry result =
    parse_loop rest TYPE empty_entry (result ++ [record_entry r]).
Proof.
  destruct r as [name size pad|name pad]; cbn [record_ok encode_record].
  - intros [Hname Hsize].
    cbn [app parse_loop]. change (u8 x46 =? 70) with true. cbv iota.
    rewrite <- app_assoc, parse_loop_file_name by exact Hname.
    cbn [app parse_loop]. change (u8 x09 =? 9) with true. cbv iota.
    rewrite <- app_assoc, parse_loop_size by exact Hsize.
    reflexivity.
  - intros Hname.
    cbn [app parse_loop]. change (u8 x44 =? 70) with false.
    change (u8 x44 =? 68) with true. cbv iota.
    rewrite <- app_assoc, parse_loop_dir_name by exact Hname.
    reflexivity.
Qed.

Lemma parse_loop_records (rs : list listing_record) (rest : list byte) :
  forall result, Forall record_ok rs ->
  parse_loop (concat (encode_record <$> rs) ++ rest) TYPE empty_entry result =
    parse_loop rest TYPE empty_entry (result ++ (record_entry <$> rs)).
Proof.
  induction rs as [|r rs IH]; intros result Hrs.
  - cbn. rewrite app_nil_r. reflexivity.
  - inversion Hrs as [|? ? Hr Hrs']; subst.
    cbn [fmap list_fmap concat]. rewrite <- app_assoc.
    rewrite parse_loop_record by exact Hr.
    fold (fmap (M:=list) encode_record rs). rewrite IH by exact Hrs'.
    rewrite <- app_assoc. reflexivity.
Qed.

Lemma parse_loop_unfinished (u : unfinished_record)
    (result : list MavFTPDirectoryListingEntry) :
  unfinished_ok u ->
  parse_loop (encode_unfinished u) TYPE empty_entry result = Normal result.
Proof.
  destruct u as [|name|name size|name size|name|name];
    cbn [unfinished_ok encode_unfinished]; intros Hok.
  - reflexivity.
  - cbn [parse_loop]. change (u8 x46 =? 70) with true. cbv iota.
    rewrite <- (app_nil_r name), parse_loop_file_name by exact Hok. reflexivity.
  - destruct Hok as [Hname Hsize].
    cbn [parse_loop]. change (u8 x46 =? 70) with true. cbv iota.
    rewrite parse_loop_file_name by exact Hname.
    cbn [parse_loop]. change (u8 x09 =? 9) with true. cbv iota.
    rewrite <- (app_nil_r size), parse_loop_size by exact Hsize. reflexivity.
  - destruct Hok as [Hname Hsize].
    cbn [parse_loop]. change (u8 x46 =? 70) with true. cbv iota.
    rewrite parse_loop_file_name by exact Hname.
    cbn [parse_loop]. change (u8 x09 =? 9) with true. cbv iota.
    rewrite parse_loop_size by exact Hsize. reflexivity.
  - cbn [parse_loop]. change (u8 x44 =? 70) with false.
    change (u8 x44 =? 68) with true. cbv iota.
    rewrite <- (app_nil_r name), parse_loop_dir_name by exact Hok. reflexivity.
  - cbn [parse_loop]. change (u8 x44 =? 70) with false.
    change (u8 x44 =? 68) with true. cbv iota.
    rewrite parse_loop_dir_name by exact Hok. reflexivity.
Qed.

(** Parsing records that each end in [NUL] and one more byte returns their
    entries in order: name and type as written, the size of a file the
    [parseInt] of its size text, the size of a directory null. *)
Theorem parse_padded_records (rs : list listing_record) :
  Forall record_ok rs ->
  parse (concat (encode_record <$> rs)) = Normal (record_entry <$> rs).
Proof.
  intros Hrs. unfold parse.
  rewrite <- (app_nil_r (concat _)), parse_loop_records by exact Hrs. reflexivity.
Qed.

(** A record cut short at the end of the data is dropped without an error,
    and so is a last record that has its [NUL] but no byte after it. *)
Theorem parse_drops_unfinished_record (rs : list listing_record) (u : unfinished_record) :
  Forall record_ok rs -> unfinished_ok u ->
  parse (concat (encode_record <$> rs) ++ encode_unfinished u)
  = Normal (record_entry <$> rs).
Proof.
  intros Hrs Hu. unfold parse.
  rewrite parse_loop_records by exact Hrs.
  apply parse_loop_unfinished. exact Hu.
Qed.

Lemma two_records_ok : Forall record_ok two_records.
Proof.
  repeat constructor; intros H; vm_compute in H; discriminate.
Qed.

Lemma parse_padded_records_witness :
  parse (concat (encode_record <$> two_records)) = Normal [file_txt_entry; logs_entry].
Proof.
  apply (parse_padded_records two_records two_records_ok).
Defined.

Lemma parse_drops_unfinished_record_witness :
  parse (concat (encode_record <$> two_records)
         ++ encode_unfinished (DirectoryNoPad (bytes_of_string "tmp")))
  = Normal [file_txt_entry; logs_entry].
Proof.
  apply (parse_drops_unfinished_record two_records
           (DirectoryNoPad (bytes_of_string "tmp")) two_records_ok).
  repeat constructor; intros H; vm_compute in H; discriminate.
Defined.

Lemma parse_loop_throws (data : list byte) :
  forall state entry result e,
  parse_loop data state entry result = Throw e ->
  exists b, b ∈ data /\ u8 b <> 70 /\ u8 b <> 68 /\
    e = Error ("Unknown entry type: " ++ decimal (u8 b)).
Proof.
  induction data as [|b data IH]; intros state entry result e H; [discriminate|].
  assert (forall state' entry' result',
            parse_loop data state' entry' result' = Throw e ->
            exists b', b' ∈ b :: data /\ u8 b' <> 70 /\ u8 b' <> 68 /\
              e = Error ("Unknown entry type: " ++ decimal (u8 b'))) as Hrest.
  { intros state' entry' result' H'. apply IH in H' as (b' & Hin & Hrest).
    exists b'. split; [right; exact Hin | exact Hrest]. }
  cbn [parse_loop] in H. destruct state.
  - destruct (Z.eqb_spec (u8 b) 70); [eapply Hrest; exact H|].
    destruct (Z.eqb_spec (u8 b) 68); [eapply Hrest; exact H|].
    injection H as <-. exists b. split; [left|]. repeat split; assumption.
  - destruct (u8 b =? 9); eapply Hrest; exact H.
  - destruct (u8 b =? 0); eapply Hrest; exact H.
  - destruct (u8 b =? 0); eapply Hrest; exact H.
  - eapply Hrest; exact H.
Qed.

Lemma parse_loop_ends (data : list byte) :
  forall state entry result, parse_loop data state entry result <> OutOfFuel.
Proof.
  induction data as [|b data IH]; intros state entry result; [discriminate|].
  cbn [parse_loop]. destruct state.
  - destruct (u8 b =? 70); [apply IH|]. destruct (u8 b =? 68); [apply IH | discriminate].
  - destruct (u8 b =? 9); apply IH.
  - destruct (u8 b =? 0); apply IH.
  - destruct (u8 b =? 0); apply IH.
  - apply IH.
Qed.

(** [parse] returns entries or throws, and what it throws is always the
    unknown-entry-type error, naming a byte of the data that is neither "F"
    (70) nor "D" (68). *)
Theorem parse_only_throws_unknown_type (data : list byte) :
  (exists entries, parse data = Normal entries) \/
  (exists b, b ∈ data /\ u8 b <> 70 /\ u8 b <> 68 /\
     parse data = Throw (Error ("Unknown entry type: " ++ decimal (u8 b)))).
Proof.
  destruct (parse data) as [entries|e|] eqn:H.
  - left. exists entries. reflexivity.
  - right. apply parse_loop_throws in H as (b & Hin & H70 & H68 & ->).
    exists b. repeat split; assumption.
  - exfalso. exact (parse_loop_ends _ _ _ _ H).
Qed.

Lemma parse_loop_count (data : list byte) :
  forall state entry result out,
  parse_loop data state entry result = Normal out ->
  (3 * length out <= 3 * length result + length data + bytes_read state)%nat.
Proof.
  induction data as [|b data IH]; intros state entry result out H.
  - injection H as <-. cbn. lia.
  - cbn [parse_loop] in H. cbn [length]. destruct state.
    + destruct (u8 b =? 70); [apply IH in H; cbn in *; lia|].
      destruct (u8 b =? 68); [apply IH in H; cbn in *; lia | discriminate].
    + destruct (u8 b =? 9); apply IH in H; cbn in *; lia.
    + destruct (u8 b =? 0); apply IH in H; cbn in *; lia.
    + destruct (u8 b =? 0); apply IH in H; cbn in *; lia.
    + apply IH in H. rewrite length_app in H. cbn in *. lia.
Qed.

(** Every entry takes at least three bytes of data: [parse] returns at most
    a third as many entries as the data has bytes. *)
Theorem parse_entry_count (data : list byte) (entries : list MavFTPDirectoryListingEntry) :
  parse data = Normal entries -> (3 * length entries <= length data)%nat.
Proof.
  intros H. apply parse_loop_count in H. cbn in H. lia.
Qed.

Lemma parse_entry_count_witness :
  (3 * length [file_txt_entry; logs_entry] <= length (padded_listing x00 x00))%nat.
Proof.
  apply (parse_entry_count (padded_listing x00 x00) [file_txt_entry; logs_entry]).
  reflexivity.
Defined.

Lemma parse_loop_shaped (data : list byte) :
  forall state entry result out,
  (state = TYPE \/ acc_type entry = "file"%string \/ acc_type entry = "directory"%string) ->
  Forall entry_shaped result ->
  parse_loop data state entry result = Normal out ->
  Forall entry_shaped out.
Proof.
  induction data as [|b data IH]; intros state entry result out Hacc Hres H.
  - injection H as <-. exact Hres.
  - cbn [parse_loop] in H. destruct state.
    + destruct (u8 b =? 70); [eapply IH; [| exact Hres | exact H]; right; left; reflexivity|].
      destruct (u8 b =? 68); [|discriminate].
      eapply IH; [| exact Hres | exact H]. right. right. reflexivity.
    + destruct Hacc as [Hacc|Hacc]; [discriminate|].
      destruct (u8 b =? 9); (eapply IH; [| exact Hres | exact H]); right; exact Hacc.
    + destruct Hacc as [Hacc|Hacc]; [discriminate|].
      destruct (u8 b =? 0); (eapply IH; [| exact Hres | exact H]); right; exact Hacc.
    + destruct Hacc as [Hacc|Hacc]; [discriminate|].
      destruct (u8 b =? 0); (eapply IH; [| exact Hres | exact H]); right; exact Hacc.
    + destruct Hacc as [Hacc|Hacc]; [discriminate|].
      eapply IH; [left; reflexivity | | exact H].
      apply Forall_app. split; [exact Hres|]. constructor; [|constructor].
      destruct Hacc as [Hacc|Hacc]; rewrite Hacc.
      * left. split; [reflexivity | eexists; reflexivity].
      * right. split; reflexivity.
Qed.

(** Every entry [parse] returns is a file with a size (which may be NaN) or a
    directory with the size null. *)
Theorem parse_entries_shaped (data : list byte) (entries : list MavFTPDirectoryListingEntry) :
  parse data = Normal entries -> Forall entry_shaped entries.
Proof.
  intros H. eapply parse_loop_shaped; [left; reflexivity | constructor | exact H].
Qed.

Lemma parse_entries_shaped_witness :
  Forall entry_shaped [file_txt_entry; logs_entry].
Proof.
  apply (parse_entries_shaped (padded_listing x00 x00) [file_txt_entry; logs_entry]).
  reflexivity.
Defined.

(** ** One exchange: retries, failure and what [send] leaves alone *)

Lemma send_loop_recovers (tm : string) (msg : FileTransferProtocol) (timeout : Z)
    (r : FileTransferProtocolPayload) (rest : list attempt) (failures : list attempt) :
  forall (fuel : nat) (retry : Z) (this : MavFTP),
  Forall failed_attempt failures ->
  Z.of_nat (length failures) < retry -> (length failures < fuel)%nat ->
  incoming this = failures ++ Responded r :: rest ->
  send_loop tm fuel msg timeout retry this =
    (Normal r, Build_MavFTP (session this) (Payload.seq r) rest
                 (port this ++ replicate (S (length failures)) msg) (progress this)).
Proof.
  induction failures as [|a failures IH]; intros fuel retry this Hfail Hretry Hfuel Hin;
    (destruct fuel as [|fuel]; [cbn in Hfuel; lia|]);
    rewrite send_loop_step by (cbn in Hretry; lia); cbv zeta; rewrite Hin; cbn [app].
  - reflexivity.
  - inversion Hfail as [|? ? Ha Hfail']; subst.
    cbn [length] in Hretry, Hfuel.
    destruct (Z.gtb_spec (retry - 1) 0) as [_|]; [|lia].
    destruct a as [m| |r']; [| |contradiction];
      (rewrite (IH fuel (retry - 1)); [| exact Hfail' | lia | lia | reflexivity]);
      cbn [session sequence incoming port progress length replicate];
      rewrite <- app_assoc; reflexivity.
Qed.

(** When fewer attempts fail than the retry budget allows and a response then
    arrives, [send] returns that response; the port was handed the same
    message once per failed attempt and once more, and the attempts after the
    response are untouched. *)
Theorem send_recovers (tm : string) (msg : FileTransferProtocol) (timeout retry : Z)
    (this : MavFTP) (failures : list attempt) (r : FileTransferProtocolPayload)
    (rest : list attempt) :
  Forall failed_attempt failures ->
  Z.of_nat (length failures) < retry ->
  incoming this = failures ++ Responded r :: rest ->
  send tm msg timeout retry this =
    (Normal r, Build_MavFTP (session this) (Payload.seq r) rest
                 (port this ++ replicate (S (length failures)) msg) (progress this)).
Proof.
  intros Hfail Hretry Hin. unfold send, get_sequence, set_sequence, mbind, M_bind.
  rewrite (send_loop_recovers tm msg timeout r rest failures); [reflexivity | | | | ];
    cbn [incoming]; try assumption. lia.
Qed.

Lemma send_recovers_witness :
  send "Timeout" sample_message 200 6
    (new_MavFTP [TimedOut; TransmitFailed "EIO"; Responded sample_response; TimedOut]) =
  (Normal sample_response,
   Build_MavFTP 1 77 [TimedOut] [sample_message; sample_message; sample_message] []).
Proof.
  apply (send_recovers "Timeout" sample_message 200 6
           (new_MavFTP [TimedOut; TransmitFailed "EIO"; Responded sample_response; TimedOut])
           [TimedOut; TransmitFailed "EIO"] sample_response [TimedOut]).
  - repeat constructor.
  - simpl. lia.
  - reflexivity.
Defined.

Lemma send_loop_fails (tm : string) (msg : FileTransferProtocol) (timeout : Z) (n : nat) :
  forall (this this' : MavFTP) (e : error),
  send_loop tm (S n) msg timeout (Z.of_nat (S n)) this = (Throw e, this') ->
  sequence this' = sequence this /\
  (exists m, e = Error ("Sending MavFTP message failed: " ++ m)) /\
  port this' = port this ++ replicate (S n) msg.
Proof.
  induction n as [|n IH]; intros this this' e H;
    rewrite send_loop_step in H by lia; cbv zeta in H.
  - change (Z.of_nat 1 - 1 >? 0) with false in H.
    destruct (incoming this) as [|[m| |r] rest]; try discriminate;
      injection H as <- <-; (split; [reflexivity|]); (split; [eexists; reflexivity|]);
      reflexivity.
  - replace (Z.of_nat (S (S n)) - 1) with (Z.of_nat (S n)) in H by lia.
    destruct (Z.gtb_spec (Z.of_nat (S n)) 0) as [_|]; [|lia].
    destruct (incoming this) as [|[m| |r] rest]; try discriminate;
      apply IH in H as (Hseq & Hm & Hport); cbn [sequence port] in *;
      (split; [exact Hseq|]); (split; [exact Hm|]);
      rewrite Hport, <- app_assoc; reflexivity.
Qed.

Lemma send_fails_how (tm : string) (msg : FileTransferProtocol) (timeout retry : Z)
    (this this' : MavFTP) (e : error) :
  send tm msg timeout retry this = (Throw e, this') ->
  sequence this' = sequence this + 1 /\
  ((retry <= 0 /\ e = Error "Did not expect to land here..." /\ port this' = port this) \/
   (0 < retry /\ (exists m, e = Error ("Sending MavFTP message failed: " ++ m)) /\
    port this' = port this ++ replicate (Z.to_nat retry) msg)).
Proof.
  unfold send, get_sequence, set_sequence, mbind, M_bind. intros H.
  destruct (Z.to_nat retry) as [|n] eqn:En.
  - assert (retry <= 0) as Hretry by lia.
    cbn in H. destruct (Z.gtb_spec retry 0); [lia|].
    injection H as <- <-. split; [reflexivity|]. left. repeat split. exact Hretry.
  - replace retry with (Z.of_nat (S n)) in H by lia.
    apply send_loop_fails in H as (Hseq & Hm & Hport). cbn [sequence port] in *.
    split; [exact Hseq|]. right. split; [lia|]. split; assumption.
Qed.

(** When [send] throws, the sequence number stays one above what it was: the
    increment made before the first attempt is not taken back. With a retry
    budget of 0 or less nothing was handed to the port; with a positive one
    the port was handed the message exactly [retry] times. *)
Theorem send_failure (tm : string) (msg : FileTransferProtocol) (timeout retry : Z)
    (this this' : MavFTP) (e : error) :
  send tm msg timeout retry this = (Throw e, this') ->
  sequence this' = sequence this + 1 /\
  ((retry <= 0 /\ e = Error "Did not expect to land here..." /\ port this' = port this) \/
   (0 < retry /\ (exists m, e = Error ("Sending MavFTP message failed: " ++ m)) /\
    port this' = port this ++ replicate (Z.to_nat retry) msg)).
Proof.
  exact (send_fails_how tm msg timeout retry this this' e).
Qed.

Lemma send_failure_witness :
  sequence (snd (send "Timeout" sample_message 200 2 (new_MavFTP []))) = 0 + 1 /\
  port (snd (send "Timeout" sample_message 200 2 (new_MavFTP [])))
    = [sample_message; sample_message].
Proof.
  pose proof (send_failure "Timeout" sample_message 200 2 (new_MavFTP []) _
                (Error "Sending MavFTP message failed: Timeout") eq_refl) as [Hseq Hport].
  split; [exact Hseq|].
  destruct Hport as [(Hretry & _)|(_ & _ & Hport)]; [lia | exact Hport].
Defined.

Lemma send_loop_frame (tm : string) (msg : FileTransferProtocol) (timeout : Z) (fuel : nat) :
  forall (retry : Z) (this this' : MavFTP) (c : completion FileTransferProtocolPayload),
  send_loop tm fuel msg timeout retry this = (c, this') ->
  session this' = session this /\ progress this' = progress this /\
  (exists k, port this' = port this ++ replicate k msg) /\
  (exists consumed, incoming this = consumed ++ incoming this').
Proof.
  assert (forall this : MavFTP,
    session this = session this /\ progress this = progress this /\
    (exists k, port this = port this ++ replicate k msg) /\
    (exists consumed, incoming this = consumed ++ incoming this)) as Hsame.
  { intros this. repeat split; [exists 0%nat; cbn; rewrite app_nil_r | exists []];
      reflexivity. }
  induction fuel as [|fuel IH]; intros retry this this' c H.
  - cbn in H. destruct (retry >? 0); injection H as _ <-; apply Hsame.
  - destruct (Z.gtb_spec retry 0) as [Hpos|Hneg].
    + rewrite send_loop_step in H by lia. cbv zeta in H.
      assert (forall (m : string) (used rest : list attempt),
        incoming this = used ++ rest ->
        (if retry - 1 >? 0
         then send_loop tm fuel msg timeout (retry - 1)
                (Build_MavFTP (session this) (sequence this) rest (port this ++ [msg])
                   (progress this))
         else (Throw (Error ("Sending MavFTP message failed: " ++ m)),
               Build_MavFTP (session this) (sequence this) rest (port this ++ [msg])
                 (progress this))) = (c, this') ->
        session this' = session this /\ progress this' = progress this /\
        (exists k, port this' = port this ++ replicate k msg) /\
        (exists consumed, incoming this = consumed ++ incoming this')) as Hagain.
      { intros m used rest Hin Hm. destruct (retry - 1 >? 0).
        - apply IH in Hm as (Hs & Hp & (k & Hport) & (consumed & Hc)).
          cbn [session progress port incoming] in *.
          repeat split; [exact Hs | exact Hp | |].
          + exists (S k). rewrite Hport, <- app_assoc. reflexivity.
          + exists (used ++ consumed). rewrite Hin, Hc, <- app_assoc. reflexivity.
        - injection Hm as _ <-. cbn [session progress port incoming].
          repeat split; [exists 1%nat; reflexivity | exists used; exact Hin]. }
      destruct (incoming this) as [|[m| |r] rest] eqn:Hin.
      * apply (Hagain tm [] []); [reflexivity | exact H].
      * apply (Hagain m [TransmitFailed m] rest); [reflexivity | exact H].
      * apply (Hagain tm [TimedOut] rest); [reflexivity | exact H].
      * injection H as _ <-. cbn [session progress port incoming].
        repeat split; [exists 1%nat; reflexivity | exists [Responded r]; reflexivity].
    + cbn in H. destruct (Z.gtb_spec retry 0); [lia|].
      injection H as _ <-. apply Hsame.
Qed.

(** However [send] ends, it leaves the session id and the progress calls as
    they were, hands the port nothing but copies of its message, and takes
    the attempts of the environment in order from the front. *)
Theorem send_frame (tm : string) (msg : FileTransferProtocol) (timeout retry : Z)
    (this this' : MavFTP) (c : completion FileTransferProtocolPayload) :
  send tm msg timeout retry this = (c, this') ->
  session this' = session this /\ progress this' = progress this /\
  (exists k, port this' = port this ++ replicate k msg) /\
  (exists consumed, incoming this = consumed ++ incoming this').
Proof.
  unfold send, get_sequence, set_sequence, mbind, M_bind. intros H.
  apply send_loop_frame in H. exact H.
Qed.

Lemma send_frame_witness :
  session (snd (send "Timeout" sample_message 200 6
                  (new_MavFTP [TimedOut; Responded sample_response]))) = 1.
Proof.
  apply (send_frame "Timeout" sample_message 200 6
           (new_MavFTP [TimedOut; Responded sample_response]) _
           (fst (send "Timeout" sample_message 200 6
                   (new_MavFTP [TimedOut; Responded sample_response])))).
  vm_compute. reflexivity.
Defined.

(** ** Reading and downloading a file *)

Lemma read_request_typed (this : MavFTP) (offset : Z) :
  0 <= session this <= 255 -> 0 <= sequence this <= 65535 ->
  0 <= offset <= 4294967295 ->
  payload_typed (request_payload (sequence this) (session this) MavFtpOpcode.READFILE
                   (Number 230) offset).
Proof.
  intros Hsession Hsequence Hoffset.
  unfold payload_typed, request_payload, MavFtpOpcode.READFILE. cbn. lia.
Qed.

Lemma reportProgress_run (offset totalSize : Z) (callback : option ProgressCallback)
    (this : MavFTP) :
  reportProgress offset totalSize callback this =
    (Normal tt, Build_MavFTP (session this) (sequence this) (incoming this) (port this)
                  (progress this ++ reported callback [(offset, totalSize)])).
Proof.
  destruct callback; cbn; [reflexivity|]. rewrite app_nil_r. destruct this; reflexivity.
Qed.

Lemma reported_app (callback : option ProgressCallback) (l1 l2 : list (Z * Z)) :
  reported callback (l1 ++ l2) = reported callback l1 ++ reported callback l2.
Proof.
  destruct callback; reflexivity.
Qed.

Lemma readFile_loop_run (tm : string) (size : Z) (callback : option ProgressCallback) :
  forall (acks : list FileTransferProtocolPayload) (fuel : nat) (this : MavFTP)
         (result : list byte) (offset : Z)
         (final : FileTransferProtocolPayload) (rest : list attempt),
  0 <= session this <= 255 -> 0 <= sequence this <= 65535 ->
  Forall read_ack acks ->
  0 <= offset -> offset + Z.of_nat (length (bytes_in acks)) <= 4294967295 ->
  Payload.opcode final <> MavFtpOpcode.ACK ->
  incoming this = (Responded <$> acks) ++ Responded final :: rest ->
  (length acks < fuel)%nat ->
  readFile_loop tm fuel size callback result offset this =
    (if option_Z_eqb (data0 final) (Some FileTransferProtocolError.EOF)
     then Normal (result ++ bytes_in acks)
     else Throw (Error ("Unable to read contents of file: " ++ code_text final)),
     Build_MavFTP (session this) (Payload.seq final) rest
       (port this ++ read_requests (session this) (sequence this) offset acks)
       (progress this ++
        reported callback
          (progress_calls size offset acks ++
           if option_Z_eqb (data0 final) (Some FileTransferProtocolError.EOF)
           then [(size, size)] else []))).
Proof.
  induction acks as [|a acks IH];
    intros fuel this result offset final rest Hsession Hsequence Hacks Hoff Hcount Hfinal
      Hin Hfuel;
    (destruct fuel as [|fuel]; [cbn in Hfuel; lia|]); cbn [readFile_loop].
  - rewrite (bind_Normal _ _ _ _ _
      (packet_ok _ _ _ this (read_request_typed this offset Hsession Hsequence
                               ltac:(unfold bytes_in in Hcount; cbn in Hcount; lia)))).
    rewrite (bind_Normal _ _ _ _ _
      (send_responded tm _ 200 6 this final rest ltac:(lia) Hin)).
    apply Z.eqb_neq in Hfinal. rewrite Hfinal.
    unfold bytes_in. cbn [fmap list_fmap concat progress_calls app read_requests].
    rewrite app_nil_r.
    destruct (option_Z_eqb (data0 final) (Some FileTransferProtocolError.EOF)).
    + rewrite (bind_Normal _ _ _ _ _ (reportProgress_run size size callback _)).
      reflexivity.
    + cbn. destruct callback; cbn; rewrite ?app_nil_r; reflexivity.
  - inversion Hacks as [|? ? (Hack & Hseq) Hacks']; subst.
    unfold bytes_in in Hcount. cbn [fmap list_fmap concat] in Hcount.
    rewrite length_app in Hcount.
    rewrite (bind_Normal _ _ _ _ _
      (packet_ok _ _ _ this (read_request_typed this offset Hsession Hsequence
                               ltac:(lia)))).
    rewrite (bind_Normal _ _ _ _ _
      (send_responded tm _ 200 6 this a _ ltac:(lia) Hin)).
    rewrite Hack. cbn [Z.eqb MavFtpOpcode.ACK Pos.eqb]. cbv zeta.
    rewrite (bind_Normal _ _ _ _ _ (reportProgress_run _ size callback _)).
    rewrite (IH fuel _ (result ++ Payload.data a)
               (offset + Z.of_nat (length (Payload.data a))) final rest);
      cbn [session sequence incoming port progress];
      try assumption; try reflexivity; try lia.
    + unfold bytes_in. cbn [fmap list_fmap concat read_requests progress_calls].
      cbv zeta. rewrite <- !app_assoc.
      destruct callback; reflexivity.
    + unfold bytes_in. lia.
    + cbn in Hfuel. lia.
Qed.

Lemma readFile_run (tm : string) (fuel : nat) (size : Z)
    (callback : option ProgressCallback) (this : MavFTP)
    (acks : list FileTransferProtocolPayload) (final : FileTransferProtocolPayload)
    (rest : list attempt) :
  0 <= session this <= 255 -> 0 <= sequence this <= 65535 ->
  Forall read_ack acks ->
  Z.of_nat (length (bytes_in acks)) <= 4294967295 ->
  Payload.opcode final = MavFtpOpcode.NAK ->
  incoming this = (Responded <$> acks) ++ Responded final :: rest ->
  (length acks < fuel)%nat ->
  let sent := read_requests (session this) (sequence this) 0 acks in
  let ended calls :=
    Build_MavFTP (session this) (Payload.seq final) rest (port this ++ sent)
      (progress this ++ reported callback ((0, size) :: progress_calls size 0 acks ++ calls)) in
  (data0 final = Some FileTransferProtocolError.EOF ->
     readFile tm fuel size callback this = (Normal (bytes_in acks), ended [(size, size)])) /\
  (data0 final <> Some FileTransferProtocolError.EOF ->
     readFile tm fuel size callback this =
       (Throw (Error ("Unable to read contents of file: " ++ code_text final)), ended [])).
Proof.
  intros Hsession Hsequence Hacks Hcount Hnak Hin Hfuel sent ended.
  assert (Payload.opcode final <> MavFtpOpcode.ACK) as Hfinal
    by (rewrite Hnak; discriminate).
  unfold readFile.
  rewrite (bind_Normal _ _ _ _ _ (reportProgress_run 0 size callback this)).
  rewrite (readFile_loop_run tm size callback acks fuel _ [] 0 final rest);
    cbn [session sequence incoming port progress]; try assumption; try lia.
  unfold ended, sent. cbn [app].
  rewrite <- !app_assoc.
  split.
  - intros Heof. apply option_Z_eqb_eq in Heof. rewrite Heof.
    destruct callback; reflexivity.
  - intros Hne.
    destruct (option_Z_eqb (data0 final) (Some FileTransferProtocolError.EOF)) eqn:E.
    + apply option_Z_eqb_eq in E. contradiction.
    + destruct callback; reflexivity.
Qed.

(** [readFile] answered by ACKs and then by a NAK: every request asks for 230
    bytes at the number of data bytes received so far; the callback is called
    with 0 first and with the running byte count after each ACK; on a NAK with
    EOF the callback is called once more with [(size, size)] and the data of
    the ACKs is returned, concatenated in order, whether or not it has [size]
    bytes; on any other NAK [readFile] throws, naming the first data byte. *)
Theorem readFile_chunks (tm : string) (fuel : nat) (size : Z)
    (callback : option ProgressCallback) (this : MavFTP)
    (acks : list FileTransferProtocolPayload) (final : FileTransferProtocolPayload)
    (rest : list attempt) :
  0 <= session this <= 255 -> 0 <= sequence this <= 65535 ->
  Forall read_ack acks ->
  Z.of_nat (length (bytes_in acks)) <= 4294967295 ->
  Payload.opcode final = MavFtpOpcode.NAK ->
  incoming this = (Responded <$> acks) ++ Responded final :: rest ->
  (length acks < fuel)%nat ->
  let sent := read_requests (session this) (sequence this) 0 acks in
  let ended calls :=
    Build_MavFTP (session this) (Payload.seq final) rest (port this ++ sent)
      (progress this ++ reported callback ((0, size) :: progress_calls size 0 acks ++ calls)) in
  (data0 final = Some FileTransferProtocolError.EOF ->
     readFile tm fuel size callback this = (Normal (bytes_in acks), ended [(size, size)])) /\
  (data0 final <> Some FileTransferProtocolError.EOF ->
     readFile tm fuel size callback this =
       (Throw (Error ("Unable to read contents of file: " ++ code_text final)), ended [])).
Proof.
  exact (readFile_run tm fuel size callback this acks final rest).
Qed.

Lemma two_chunks_ok : Forall read_ack two_chunks.
Proof.
  repeat constructor; simpl; lia.
Qed.

Lemma readFile_chunks_witness :
  readFile "Timeout" 3 5 (Some onProgress)
    (Build_MavFTP 9 5 ((Responded <$> two_chunks) ++ [Responded read_eof]) [] []) =
  (Normal [x68; x65; x6c; x6c; x6f],
   Build_MavFTP 9 30 [] [read_request 9 5 0; read_request 9 10 3; read_request 9 20 5]
     [(0, 5); (3, 5); (5, 5); (5, 5)]).
Proof.
  apply (proj1 (readFile_chunks "Timeout" 3 5 (Some onProgress)
           (Build_MavFTP 9 5 ((Responded <$> two_chunks) ++ [Responded read_eof]) [] [])
           two_chunks read_eof []
           ltac:(simpl; lia) ltac:(simpl; lia) two_chunks_ok
           ltac:(vm_compute; discriminate) eq_refl eq_refl ltac:(simpl; lia))).
  reflexivity.
Defined.

Lemma terminateSession_responded (tm : string) (this : MavFTP)
    (r : FileTransferProtocolPayload) (rest : list attempt) :
  0 <= session this <= 255 -> 0 <= sequence this <= 65535 ->
  Payload.opcode r = MavFtpOpcode.ACK ->
  incoming this = Responded r :: rest ->
  terminateSession tm this =
    (Normal r, Build_MavFTP 0 (Payload.seq r) rest (port this ++ [terminate_request this])
                 (progress this)).
Proof.
  intros Hsession Hsequence Hack Hin. unfold terminateSession.
  rewrite (bind_Normal _ _ _ _ _ (packet_ok MavFtpOpcode.TERMINATESESSION (Bytes []) 0 this
    ltac:(unfold payload_typed, request_payload, MavFtpOpcode.TERMINATESESSION; cbn; lia))).
  rewrite (bind_Normal _ _ _ _ _ (send_responded tm _ 200 6 this r rest ltac:(lia) Hin)).
  rewrite (bind_Normal _ _ _ _ _ (handleError_ack r _ Hack)).
  reflexivity.
Qed.

(** A download that goes well: after the open, ACKs with the chunks, a NAK
    with EOF and an ACK of the terminate request, [downloadFile] returns the
    chunks concatenated in order and leaves the session id 0; the port was
    handed the read requests and then one terminate request, which carries the
    sequence number of the EOF response and the session id of the open. *)
Theorem downloadFile_returns (tm : string) (fuel : nat) (filename : string)
    (this this1 : MavFTP) (response : FileTransferProtocolPayload) (size : Z)
    (chunks : list FileTransferProtocolPayload) (eof ack : FileTransferProtocolPayload)
    (rest : list attempt) :
  openFileRO tm filename this = (Normal (response, size), this1) ->
  0 <= session this1 <= 255 -> 0 <= sequence this1 <= 65535 ->
  Forall read_ack chunks ->
  Z.of_nat (length (bytes_in chunks)) <= 4294967295 ->
  Payload.opcode eof = MavFtpOpcode.NAK ->
  data0 eof = Some FileTransferProtocolError.EOF ->
  0 <= Payload.seq eof <= 65535 ->
  Payload.opcode ack = MavFtpOpcode.ACK ->
  incoming this1 = (Responded <$> chunks) ++ Responded eof :: Responded ack :: rest ->
  (length chunks < fuel)%nat ->
  downloadFile tm fuel filename this =
    (Normal (bytes_in chunks),
     Build_MavFTP 0 (Payload.seq ack) rest
       ((port this1 ++ read_requests (session this1) (sequence this1) 0 chunks) ++
        [request_message (Payload.seq eof) (session this1) MavFtpOpcode.TERMINATESESSION
           (Bytes []) 0])
       (progress this1 ++ (0, size) :: progress_calls size 0 chunks ++ [(size, size)])).
Proof.
  intros Hopen Hsession Hsequence Hchunks Hcount Hnak Heof Hseq Hack Hin Hfuel.
  unfold downloadFile. rewrite (bind_Normal _ _ _ _ _ Hopen).
  unfold try_finally.
  rewrite (proj1 (readFile_run tm fuel size (Some onProgress) this1 chunks eof
                    (Responded ack :: rest) Hsession Hsequence Hchunks Hcount Hnak Hin Hfuel)
                 Heof).
  rewrite (terminateSession_responded tm _ ack rest); cbn [session sequence incoming];
    try assumption; reflexivity.
Qed.

Lemma downloadFile_returns_witness :
  fst (downloadFile "Timeout" 3 "/log.bin" (new_MavFTP download_ok_script))
    = Normal [x68; x65; x6c; x6c; x6f] /\
  session (snd (downloadFile "Timeout" 3 "/log.bin" (new_MavFTP download_ok_script))) = 0.
Proof.
  pose proof (downloadFile_returns "Timeout" 3 "/log.bin" (new_MavFTP download_ok_script)
                (snd (openFileRO "Timeout" "/log.bin" (new_MavFTP download_ok_script)))
                (open_ack 4 [x05; x00; x00; x00]) 5 two_chunks read_eof terminate_ack []
                ltac:(vm_compute; reflexivity)
                ltac:(vm_compute; split; discriminate)
                ltac:(vm_compute; split; discriminate) two_chunks_ok
                ltac:(vm_compute; discriminate) eq_refl eq_refl
                ltac:(vm_compute; split; discriminate) eq_refl
                ltac:(vm_compute; reflexivity) ltac:(simpl; lia)) as H.
  rewrite H. split; reflexivity.
Defined.

(** ** The single-exchange operations *)

Lemma text_request_typed (opcode : Z) (path : string) (offset : Z) (this : MavFTP) :
  0 <= session this <= 255 -> 0 <= sequence this <= 65535 ->
  0 <= opcode <= 255 -> (String.length path <= 255)%nat -> 0 <= offset <= 4294967295 ->
  payload_typed (request_payload (sequence this) (session this) opcode (Text path) offset).
Proof.
  intros Hsession Hsequence Hopcode Hpath Hoffset.
  unfold payload_typed, request_payload, string_length. cbn. lia.
Qed.

(** [removeFile] answered at once: an ACK is returned; any other response
    makes it throw the name the error table has for the first data byte, so
    that code 2 reads FailErrno here, not the filesystem error of
    [handleError]. The session id is not touched. *)
Theorem removeFile_outcome (tm filename : string) (this : MavFTP)
    (r : FileTransferProtocolPayload) (rest : list attempt) :
  0 <= session this <= 255 -> 0 <= sequence this <= 65535 ->
  (String.length filename <= 255)%nat ->
  incoming this = Responded r :: rest ->
  let msg := request_message (sequence this) (session this) MavFtpOpcode.REMOVEFILE
               (Text filename) 0 in
  (Payload.opcode r = MavFtpOpcode.ACK ->
     removeFile tm filename this = (Normal r, answered this msg r rest)) /\
  (Payload.opcode r <> MavFtpOpcode.ACK ->
     removeFile tm filename this =
       (Throw (new_Error (FileTransferProtocolError.name (data0 r))),
        answered this msg r rest)) /\
  (Payload.opcode r = MavFtpOpcode.NAK -> data0 r = Some 2 ->
     removeFile tm filename this = (Throw (Error "FailErrno"), answered this msg r rest)).
Proof.
  intros Hsession Hsequence Hname Hin msg.
  assert (removeFile tm filename this =
            (if negb (Payload.opcode r =? MavFtpOpcode.ACK)
             then throw (new_Error (FileTransferProtocolError.name (data0 r)))
             else mret r) (answered this msg r rest)) as Hrun.
  { unfold removeFile.
    rewrite (bind_Normal _ _ _ _ _
      (packet_ok _ _ _ this (text_request_typed MavFtpOpcode.REMOVEFILE filename 0 this
         Hsession Hsequence ltac:(unfold MavFtpOpcode.REMOVEFILE; lia) Hname ltac:(lia)))).
    rewrite (bind_Normal _ _ _ _ _ (send_responded tm _ 200 6 this r rest ltac:(lia) Hin)).
    reflexivity. }
  rewrite Hrun. split; [|split].
  - intros ->. reflexivity.
  - intros Hne. apply Z.eqb_neq in Hne. rewrite Hne. reflexivity.
  - intros -> ->. reflexivity.
Qed.

Lemma removeFile_outcome_witness :
  removeFile "Timeout" "/old.bak" (new_MavFTP [Responded (nak x02)]) =
    (Throw (Error "FailErrno"),
     Build_MavFTP 1 78 []
       [request_message 0 1 MavFtpOpcode.REMOVEFILE (Text "/old.bak") 0] []).
Proof.
  apply (proj2 (proj2 (removeFile_outcome "Timeout" "/old.bak"
           (new_MavFTP [Responded (nak x02)]) (nak x02) []
           ltac:(simpl; lia) ltac:(simpl; lia) ltac:(simpl; lia) eq_refl))).
  - reflexivity.
  - reflexivity.
Defined.

(** [resetSessions] answered at once: on an ACK it returns the response with
    the session id 2; on a NAK it throws and the session id stays; on a
    response that is neither it returns the response and the session id
    stays as it was. *)
Theorem resetSessions_outcome (tm : string) (this : MavFTP)
    (r : FileTransferProtocolPayload) (rest : list attempt) :
  0 <= session this <= 255 -> 0 <= sequence this <= 65535 ->
  incoming this = Responded r :: rest ->
  let msg := request_message (sequence this) (session this) MavFtpOpcode.RESETSESSION
               (Bytes []) 0 in
  (Payload.opcode r = MavFtpOpcode.ACK ->
     resetSessions tm this =
       (Normal r, Build_MavFTP 2 (Payload.seq r) rest (port this ++ [msg]) (progress this))) /\
  (Payload.opcode r = MavFtpOpcode.NAK ->
     exists e, resetSessions tm this = (Throw e, answered this msg r rest)) /\
  (Payload.opcode r <> MavFtpOpcode.ACK -> Payload.opcode r <> MavFtpOpcode.NAK ->
     resetSessions tm this = (Normal r, answered this msg r rest)).
Proof.
  intros Hsession Hsequence Hin msg.
  assert (forall k : FileTransferProtocolPayload -> M FileTransferProtocolPayload,
    (msg ← packet MavFtpOpcode.RESETSESSION (Bytes []) 0 default_targets;
     response ← send tm msg 200 6; k response) this = k r (answered this msg r rest))
    as Hrun.
  { intros k.
    rewrite (bind_Normal _ _ _ _ _ (packet_ok MavFtpOpcode.RESETSESSION (Bytes []) 0 this
      ltac:(unfold payload_typed, request_payload, MavFtpOpcode.RESETSESSION; cbn; lia))).
    rewrite (bind_Normal _ _ _ _ _ (send_responded tm _ 200 6 this r rest ltac:(lia) Hin)).
    reflexivity. }
  unfold resetSessions.
  rewrite (Hrun (fun response =>
    _ ← handleError (Some response);
    _ ← (if Payload.opcode response =? MavFtpOpcode.ACK then set_session 2 else mret tt);
    mret response)).
  split; [|split].
  - intros Hack. rewrite (bind_Normal _ _ _ _ _ (handleError_ack r _ Hack)).
    rewrite Hack. reflexivity.
  - intros Hnak. unfold handleError. rewrite Hnak. cbn [Z.eqb MavFtpOpcode.NAK Pos.eqb].
    destruct (option_Z_eqb (data0 r) (Some 2)); eexists; reflexivity.
  - intros Hne1 Hne2. unfold handleError.
    apply Z.eqb_neq in Hne1, Hne2. rewrite Hne2. cbn. rewrite Hne1. reflexivity.
Qed.

Lemma resetSessions_outcome_witness :
  resetSessions "Timeout" (new_MavFTP [Responded stray_response]) =
    (Normal stray_response,
     Build_MavFTP 1 12 []
       [request_message 0 1 MavFtpOpcode.RESETSESSION (Bytes []) 0] []).
Proof.
  apply (proj2 (proj2 (resetSessions_outcome "Timeout" (new_MavFTP [Responded stray_response])
           stray_response [] ltac:(simpl; lia) ltac:(simpl; lia) eq_refl))).
  - discriminate.
  - discriminate.
Defined.

(** ** What the operations leave alone, and requests that cannot be built *)

Lemma listDirectory_loop_session (tm folder : string) (fuel : nat) :
  forall result this c this',
  listDirectory_loop tm fuel folder result this = (c, this') ->
  session this' = session this.
Proof.
  induction fuel as [|fuel IH]; intros result this c this' H.
  - injection H as _ <-. reflexivity.
  - cbn [listDirectory_loop] in H.
    destruct (packet MavFtpOpcode.LISTDIRECTORY (Text folder) (Z.of_nat (length result))
                default_targets this) as [[msg|e|] this0] eqn:Ep;
      pose proof (packet_state Ep) as ->;
      [rewrite (bind_Normal _ _ _ _ _ Ep) in H
      | rewrite (bind_Throw _ _ _ _ _ Ep) in H; injection H as _ <-; reflexivity
      | exfalso; exact (packet_ends Ep eq_refl)].
    destruct (send tm msg 200 6 this) as [[r|e|] this1] eqn:Es;
      pose proof (send_session Es) as Hs.
    + rewrite (bind_Normal _ _ _ _ _ Es) in H.
      destruct (Payload.opcode r =? MavFtpOpcode.ACK).
      * unfold lift, mbind, M_bind in H.
        destruct (parse (Payload.data r)) as [entries|e|].
        -- apply IH in H. congruence.
        -- injection H as _ <-. exact Hs.
        -- injection H as _ <-. exact Hs.
      * destruct (negb _); injection H as _ <-; exact Hs.
    + rewrite (bind_Throw _ _ _ _ _ Es) in H. injection H as _ <-. exact Hs.
    + unfold mbind, M_bind in H. rewrite Es in H. injection H as _ <-. exact Hs.
Qed.

(** [listDirectory] and [removeFile] never change the session id, however
    they end. *)
Theorem listing_and_removing_keep_session (tm path : string) (fuel : nat)
    (this this' : MavFTP) :
  (forall c, listDirectory tm fuel path this = (c, this') -> session this' = session this) /\
  (forall c, removeFile tm path this = (c, this') -> session this' = session this).
Proof.
  split.
  - intros c H. exact (listDirectory_loop_session tm path fuel [] this c this' H).
  - intros c H. unfold removeFile in H.
    destruct (packet MavFtpOpcode.REMOVEFILE (Text path) 0 default_targets this)
      as [[msg|e|] this0] eqn:Ep;
      pose proof (packet_state Ep) as ->;
      [rewrite (bind_Normal _ _ _ _ _ Ep) in H
      | rewrite (bind_Throw _ _ _ _ _ Ep) in H; injection H as _ <-; reflexivity
      | exfalso; exact (packet_ends Ep eq_refl)].
    destruct (send tm msg 200 6 this) as [[r|e|] this1] eqn:Es;
      pose proof (send_session Es) as Hs.
    + rewrite (bind_Normal _ _ _ _ _ Es) in H.
      destruct (negb _); injection H as _ <-; exact Hs.
    + rewrite (bind_Throw _ _ _ _ _ Es) in H. injection H as _ <-. exact Hs.
    + unfold mbind, M_bind in H. rewrite Es in H. injection H as _ <-. exact Hs.
Qed.

Lemma listing_and_removing_keep_session_witness :
  session (snd (listDirectory "Timeout" 2 "/"
                  (new_MavFTP [Responded listing_ack_1; Responded listing_eof]))) = 1.
Proof.
  apply (proj1 (listing_and_removing_keep_session "Timeout" "/" 2
           (new_MavFTP [Responded listing_ack_1; Responded listing_eof]) _)
           (fst (listDirectory "Timeout" 2 "/"
                   (new_MavFTP [Responded listing_ack_1; Responded listing_eof])))).
  vm_compute. reflexivity.
Defined.

Lemma exchange_throw_session (tm : string) (opcode : Z)
    (k : FileTransferProtocolPayload -> M unit) (this this' : MavFTP) (e : error) :
  (forall r s, exists s', k r s = (Normal tt, s')) ->
  (msg ← packet opcode (Bytes []) 0 default_targets;
   response ← send tm msg 200 6;
   _ ← handleError (Some response);
   _ ← k response;
   mret response) this = (Throw e, this') ->
  session this' = session this.
Proof.
  intros Hk H.
  destruct (packet opcode (Bytes []) 0 default_targets this) as [[msg|e0|] this0] eqn:Ep;
    pose proof (packet_state Ep) as ->;
    [rewrite (bind_Normal _ _ _ _ _ Ep) in H
    | rewrite (bind_Throw _ _ _ _ _ Ep) in H; injection H as _ <-; reflexivity
    | exfalso; exact (packet_ends Ep eq_refl)].
  destruct (send tm msg 200 6 this) as [[r|e0|] this1] eqn:Es;
    pose proof (send_session Es) as Hs.
  - rewrite (bind_Normal _ _ _ _ _ Es) in H.
    destruct (handleError (Some r) this1) as [[[]|e0|] this2] eqn:Eh;
      pose proof (handleError_state Eh) as ->.
    + rewrite (bind_Normal _ _ _ _ _ Eh) in H.
      destruct (Hk r this1) as [s' Hs']. rewrite (bind_Normal _ _ _ _ _ Hs') in H.
      discriminate.
    + rewrite (bind_Throw _ _ _ _ _ Eh) in H. injection H as _ <-. exact Hs.
    + unfold mbind, M_bind in H. rewrite Eh in H. discriminate.
  - rewrite (bind_Throw _ _ _ _ _ Es) in H. injection H as _ <-. exact Hs.
  - unfold mbind, M_bind in H. rewrite Es in H. discriminate.
Qed.

(** When [resetSessions] or [terminateSession] throws, the session id is what
    it was before the call: a terminate that fails does not clear it. *)
Theorem failed_reset_or_terminate_keeps_session (tm : string) (this this' : MavFTP)
    (e : error) :
  (resetSessions tm this = (Throw e, this') -> session this' = session this) /\
  (terminateSession tm this = (Throw e, this') -> session this' = session this).
Proof.
  split; intros H.
  - apply (exchange_throw_session tm MavFtpOpcode.RESETSESSION
             (fun response =>
                if Payload.opcode response =? MavFtpOpcode.ACK then set_session 2 else mret tt)
             this this' e); [|exact H].
    intros r s. destruct (Payload.opcode r =? MavFtpOpcode.ACK); eexists; reflexivity.
  - apply (exchange_throw_session tm MavFtpOpcode.TERMINATESESSION
             (fun _ => set_session 0) this this' e); [|exact H].
    intros r s. eexists. reflexivity.
Qed.

Lemma failed_reset_or_terminate_keeps_session_witness :
  session (snd (terminateSession "Timeout"
                  (Build_MavFTP 9 5 [Responded (nak x04)] [] []))) = 9.
Proof.
  apply (proj2 (failed_reset_or_terminate_keeps_session "Timeout"
                  (Build_MavFTP 9 5 [Responded (nak x04)] [] []) _
                  (Error "InvalidSession"))).
  vm_compute. reflexivity.
Defined.

Lemma packet_throws (opcode : Z) (data : packet_data) (offset : Z) (to : targets)
    (this : MavFTP) :
  ~ payload_typed (request_payload (sequence this) (session this) opcode data offset) ->
  packet opcode data offset to this = (Throw RangeError, this).
Proof.
  intros Hn. unfold packet, get_sequence, get_session, lift, mbind, M_bind.
  destruct (serialize_cases
              (request_payload (sequence this) (session this) opcode data offset))
    as [[Ht _]|[_ ->]]; [contradiction | reflexivity].
Qed.

Lemma long_text_untyped (sequence session opcode : Z) (path : string) (offset : Z) :
  (255 < String.length path)%nat ->
  ~ payload_typed (request_payload sequence session opcode (Text path) offset).
Proof.
  intros Hlong (_ & _ & _ & Hsize & _). unfold request_payload, string_length in Hsize.
  cbn in Hsize. lia.
Qed.

Lemma bad_sequence_untyped (sequence session opcode : Z) (data : packet_data) (offset : Z) :
  ~ (0 <= sequence <= 65535) ->
  ~ payload_typed (request_payload sequence session opcode data offset).
Proof.
  intros Hbad (Hseq & _). cbn in Hseq. contradiction.
Qed.

(** A path of more than 255 characters does not fit the [size] byte: every
    operation that takes a path throws the range error, hands nothing to the
    port and changes nothing. *)
Theorem long_path_rejected (tm path : string) (fuel : nat) (this : MavFTP) :
  (255 < String.length path)%nat ->
  listDirectory tm (S fuel) path this = (Throw RangeError, this) /\
  openFileRO tm path this = (Throw RangeError, this) /\
  downloadFile tm fuel path this = (Throw RangeError, this) /\
  removeFile tm path this = (Throw RangeError, this).
Proof.
  intros Hlong.
  assert (forall opcode offset,
            packet opcode (Text path) offset default_targets this = (Throw RangeError, this))
    as Hp by (intros; apply packet_throws, long_text_untyped, Hlong).
  assert (openFileRO tm path this = (Throw RangeError, this)) as Hopen
    by (unfold openFileRO; rewrite (bind_Throw _ _ _ _ _ (Hp _ _)); reflexivity).
  repeat split.
  - unfold listDirectory. cbn [listDirectory_loop].
    rewrite (bind_Throw _ _ _ _ _ (Hp _ _)). reflexivity.
  - exact Hopen.
  - unfold downloadFile. rewrite (bind_Throw _ _ _ _ _ Hopen). reflexivity.
  - unfold removeFile. rewrite (bind_Throw _ _ _ _ _ (Hp _ _)). reflexivity.
Qed.

Lemma long_path_rejected_witness :
  removeFile "Timeout" long_path (new_MavFTP [Responded sample_response])
    = (Throw RangeError, new_MavFTP [Responded sample_response]).
Proof.
  apply (long_path_rejected "Timeout" long_path 0 (new_MavFTP [Responded sample_response])).
  vm_compute. lia.
Defined.

Lemma blocked (tm : string) (this : MavFTP) (path : string) (fuel : nat) :
  ~ (0 <= sequence this <= 65535) ->
  resetSessions tm this = (Throw RangeError, this) /\
  listDirectory tm (S fuel) path this = (Throw RangeError, this) /\
  downloadFile tm fuel path this = (Throw RangeError, this) /\
  removeFile tm path this = (Throw RangeError, this).
Proof.
  intros Hbad.
  assert (forall opcode data offset,
            packet opcode data offset default_targets this = (Throw RangeError, this))
    as Hp by (intros; apply packet_throws, bad_sequence_untyped, Hbad).
  repeat split.
  - unfold resetSessions. rewrite (bind_Throw _ _ _ _ _ (Hp _ _ _)). reflexivity.
  - unfold listDirectory. cbn [listDirectory_loop].
    rewrite (bind_Throw _ _ _ _ _ (Hp _ _ _)). reflexivity.
  - unfold downloadFile, openFileRO.
    rewrite (bind_Throw _ _ _ _ _ (bind_Throw _ _ _ _ _ (Hp _ _ _))). reflexivity.
  - unfold removeFile. rewrite (bind_Throw _ _ _ _ _ (Hp _ _ _)). reflexivity.
Qed.

(** The sequence number is never wrapped to 16 bits: when [send] throws in an
    engine that held the sequence number 65535, the engine holds 65536, and
    from then on every public operation throws the range error before
    anything is handed to the port, [resetSessions] included. *)
Theorem stuck_after_failed_exchange (tm : string) (msg : FileTransferProtocol)
    (timeout retry : Z) (this this' : MavFTP) (e : error) (path : string) (fuel : nat) :
  send tm msg timeout retry this = (Throw e, this') ->
  sequence this = 65535 ->
  sequence this' = 65536 /\
  resetSessions tm this' = (Throw RangeError, this') /\
  listDirectory tm (S fuel) path this' = (Throw RangeError, this') /\
  downloadFile tm fuel path this' = (Throw RangeError, this') /\
  removeFile tm path this' = (Throw RangeError, this').
Proof.
  intros Hsend Hseq.
  apply send_fails_how in Hsend as [Hnext _]. rewrite Hseq in Hnext.
  split; [exact Hnext|]. apply blocked. rewrite Hnext. lia.
Qed.

Lemma stuck_after_failed_exchange_witness :
  let this' := snd (send "Timeout" sample_message 200 6 at_last_sequence) in
  sequence this' = 65536 /\
  resetSessions "Timeout" this' = (Throw RangeError, this') /\
  listDirectory "Timeout" 1 "/" this' = (Throw RangeError, this') /\
  downloadFile "Timeout" 0 "/" this' = (Throw RangeError, this') /\
  removeFile "Timeout" "/" this' = (Throw RangeError, this').
Proof.
  intros this'.
  apply (stuck_after_failed_exchange "Timeout" sample_message 200 6 at_last_sequence this'
           (Error "Sending MavFTP message failed: Timeout") "/" 0).
  - vm_compute. reflexivity.
  - reflexivity.
Defined.

(** ** Paths on the wire *)

Lemma length_list_ascii (s : string) : length (list_ascii_of_string s) = String.length s.
Proof.
  induction s as [|c s IH]; [reflexivity|]. cbn. rewrite IH. reflexivity.
Qed.

Lemma low_byte_of_ascii (c : ascii) : low_byte (Z.of_N (N_of_ascii c)) = byte_of_ascii c.
Proof.
  unfold low_byte.
  pose proof (N_ascii_bounded c) as Hc.
  change 255 with (Z.ones 8). rewrite Z.land_ones by lia.
  rewrite Z.mod_small by lia. rewrite N2Z.id, <- byte_of_ascii_via_N. reflexivity.
Qed.

Lemma encode_char_length (c : ascii) :
  ((N_of_ascii c < 128)%N /\ encode_char c = [byte_of_ascii c]) \/
  (~ (N_of_ascii c < 128)%N /\ length (encode_char c) = 2%nat).
Proof.
  unfold encode_char. destruct (Z.ltb_spec (Z.of_N (N_of_ascii c)) 128).
  - left. split; [lia|]. rewrite low_byte_of_ascii. reflexivity.
  - right. split; [lia | reflexivity].
Qed.

Lemma encode_length (l : list ascii) :
  (length l <= length (flat_map encode_char l))%nat /\
  (Forall (fun c => (N_of_ascii c < 128)%N) l ->
     flat_map encode_char l = map byte_of_ascii l) /\
  (~ Forall (fun c => (N_of_ascii c < 128)%N) l ->
     (length l < length (flat_map encode_char l))%nat).
Proof.
  induction l as [|c l (IHle & IHascii & IHnot)].
  - cbn. split; [lia|]. split; [reflexivity|].
    intros H. exfalso. apply H. constructor.
  - cbn [flat_map length map]. rewrite length_app.
    destruct (encode_char_length c) as [[Hc Hone]|[Hc Htwo]].
    + rewrite Hone. cbn [length app]. repeat split.
      * lia.
      * intros Hall. inversion Hall; subst. rewrite IHascii by assumption. reflexivity.
      * intros Hn. assert (~ Forall (fun c => (N_of_ascii c < 128)%N) l) as Hl
          by (intros Hl; apply Hn; constructor; assumption).
        apply IHnot in Hl. lia.
    + rewrite Htwo. repeat split.
      * lia.
      * intros Hall. inversion Hall; subst. contradiction.
      * intros _. lia.
Qed.

Lemma deserialize_wire_fit (p : FileTransferProtocolPayload) :
  payload_typed p ->
  (Z.to_nat (Payload.size p) <= length (Payload.data p))%nat ->
  deserialize (wire p) = Normal (decoded p).
Proof.
  intros (Hseq & Hsession & Hopcode & Hsz & Hreq & Hburst & Hoffset) Hfit.
  unfold wire. cbn [app].
  rewrite deserialize_long by (rewrite u8_low_byte_small by lia; exact Hfit).
  unfold header_of, decoded.
  rewrite le16_join, le32_join by lia.
  rewrite !u8_low_byte_small by lia. reflexivity.
Qed.

(** A request that carries a path has the number of characters of the path
    as its [size] and the UTF-8 bytes of the path as its data. Decoding the
    request gives [size] bytes of data: the whole path when every character
    is below 128, and a path cut short by one byte for each character from
    128 on otherwise. *)
Theorem path_request_on_wire (opcode : Z) (path : string) (offset : Z) (this : MavFTP) :
  0 <= session this <= 255 -> 0 <= sequence this <= 65535 ->
  0 <= opcode <= 255 -> (String.length path <= 255)%nat -> 0 <= offset <= 4294967295 ->
  let request := request_payload (sequence this) (session this) opcode (Text path) offset in
  exists msg,
    packet opcode (Text path) offset default_targets this = (Normal msg, this) /\
    deserialize (payload msg) = Normal (decoded request) /\
    Payload.data (decoded request) = take (String.length path) (textEncoder_encode path) /\
    (is_ascii path -> Payload.data (decoded request) = list_byte_of_string path) /\
    (~ is_ascii path ->
       (length (Payload.data (decoded request)) < length (textEncoder_encode path))%nat).
Proof.
  intros Hsession Hsequence Hopcode Hpath Hoffset request.
  pose proof (text_request_typed opcode path offset this Hsession Hsequence Hopcode Hpath
                Hoffset) as Htyped.
  destruct (encode_length (list_ascii_of_string path)) as (Hle & Hascii & Hnot).
  rewrite length_list_ascii in Hle, Hnot.
  assert (Payload.data (decoded request)
          = take (String.length path) (textEncoder_encode path)) as Hdata.
  { unfold decoded, request, request_payload, string_length. cbn.
    f_equal. lia. }
  exists (request_message (sequence this) (session this) opcode (Text path) offset).
  split; [apply packet_ok; exact Htyped|].
  split.
  { apply deserialize_wire_fit; [exact Htyped|].
    change (Z.to_nat (Z.of_nat (String.length path))
            <= length (flat_map encode_char (list_ascii_of_string path)))%nat.
    rewrite Nat2Z.id. exact Hle. }
  split; [exact Hdata|]. split.
  - intros Ha. rewrite Hdata. unfold textEncoder_encode, list_byte_of_string.
    rewrite (Hascii Ha), firstn_all2; [reflexivity|].
    rewrite length_map, length_list_ascii. lia.
  - intros Hn. rewrite Hdata, length_take. apply Hnot in Hn.
    unfold textEncoder_encode. lia.
Qed.

Lemma path_request_on_wire_witness :
  exists msg,
    packet MavFtpOpcode.REMOVEFILE (Text accented_path) 0 default_targets (new_MavFTP [])
      = (Normal msg, new_MavFTP []) /\
    deserialize (payload msg) = Normal
      (decoded (request_payload 0 1 MavFtpOpcode.REMOVEFILE (Text accented_path) 0)) /\
    Payload.data (decoded (request_payload 0 1 MavFtpOpcode.REMOVEFILE (Text accented_path) 0))
      = [x2f; xc3].
Proof.
  destruct (path_request_on_wire MavFtpOpcode.REMOVEFILE accented_path 0 (new_MavFTP [])
              ltac:(simpl; lia) ltac:(simpl; lia)
              ltac:(unfold MavFtpOpcode.REMOVEFILE; lia) ltac:(simpl; lia) ltac:(lia))
    as (msg & Hp & Hd & _).
  exists msg. split; [exact Hp|]. split; [exact Hd|]. reflexivity.
Defined.

(** ** A listing that does not decode *)

Lemma listDirectory_loop_undecodable (tm folder : string) :
  forall (acks : list FileTransferProtocolPayload) (fuel : nat) (this : MavFTP)
         (result : list MavFTPDirectoryListingEntry)
         (bad : FileTransferProtocolPayload) (rest : list attempt) (e : error),
  0 <= session this <= 255 -> 0 <= sequence this <= 65535 ->
  (String.length folder <= 255)%nat ->
  Forall listing_ack acks ->
  Z.of_nat (length result + length (entries_in acks)) <= 4294967295 ->
  Payload.opcode bad = MavFtpOpcode.ACK ->
  parse (Payload.data bad) = Throw e ->
  incoming this = (Responded <$> acks) ++ Responded bad :: rest ->
  (length acks < fuel)%nat ->
  listDirectory_loop tm fuel folder result this =
    (Throw e,
     Build_MavFTP (session this) (Payload.seq bad) rest
       (port this ++ list_requests folder (session this) (sequence this) (length result) acks)
       (progress this)).
Proof.
  induction acks as [|a acks IH];
    intros fuel this result bad rest e Hsession Hsequence Hfolder Hacks Hcount Hbad Hparse
      Hin Hfuel;
    (destruct fuel as [|fuel]; [cbn in Hfuel; lia|]); cbn [listDirectory_loop].
  - rewrite (bind_Normal _ _ _ _ _
      (packet_ok _ _ _ this (list_request_typed folder this (length result)
                               Hsession Hsequence Hfolder ltac:(lia)))).
    rewrite (bind_Normal _ _ _ _ _
      (send_responded tm _ 200 6 this bad rest ltac:(lia) Hin)).
    rewrite Hbad. cbn [Z.eqb MavFtpOpcode.ACK Pos.eqb].
    unfold lift at 1. unfold mbind at 1, M_bind at 1. rewrite Hparse. reflexivity.
  - inversion Hacks as [|? ? (Hack & Hseq & Hdecodes) Hacks']; subst.
    unfold entries_in in Hcount. cbn [fmap list_fmap concat] in Hcount.
    rewrite length_app in Hcount.
    rewrite (bind_Normal _ _ _ _ _
      (packet_ok _ _ _ this (list_request_typed folder this (length result)
                               Hsession Hsequence Hfolder ltac:(lia)))).
    rewrite (bind_Normal _ _ _ _ _
      (send_responded tm _ 200 6 this a _ ltac:(lia) Hin)).
    rewrite Hack. cbn [Z.eqb MavFtpOpcode.ACK Pos.eqb].
    unfold lift at 1. unfold mbind at 1, M_bind at 1. rewrite Hdecodes.
    rewrite (IH fuel _ (result ++ entries_of a) bad rest e);
      cbn [session sequence incoming port progress];
      try assumption; try reflexivity.
    + cbn [list_requests]. rewrite length_app, <- !app_assoc. reflexivity.
    + rewrite length_app. unfold entries_in. lia.
    + cbn in Hfuel. lia.
Qed.

(** An ACK whose data the parser rejects makes [listDirectory] throw the
    parser's error: the entries of the ACKs before it are not returned, and
    no further request is sent. *)
Theorem listDirectory_undecodable_ack (tm folder : string) (this : MavFTP)
    (acks : list FileTransferProtocolPayload) (bad : FileTransferProtocolPayload)
    (rest : list attempt) (e : error) (fuel : nat) :
  0 <= session this <= 255 -> 0 <= sequence this <= 65535 ->
  (String.length folder <= 255)%nat ->
  Forall listing_ack acks ->
  Z.of_nat (length (entries_in acks)) <= 4294967295 ->
  Payload.opcode bad = MavFtpOpcode.ACK ->
  parse (Payload.data bad) = Throw e ->
  incoming this = (Responded <$> acks) ++ Responded bad :: rest ->
  (length acks < fuel)%nat ->
  listDirectory tm fuel folder this =
    (Throw e,
     Build_MavFTP (session this) (Payload.seq bad) rest
       (port this ++ list_requests folder (session this) (sequence this) 0 acks)
       (progress this)).
Proof.
  intros Hsession Hsequence Hfolder Hacks Hcount Hbad Hparse Hin Hfuel.
  exact (listDirectory_loop_undecodable tm folder acks fuel this [] bad rest e
           Hsession Hsequence Hfolder Hacks Hcount Hbad Hparse Hin Hfuel).
Qed.

Lemma listDirectory_undecodable_ack_witness :
  listDirectory "Timeout" 2 "/"
    (new_MavFTP [Responded listing_ack_1; Responded undecodable_ack; Responded listing_eof])
  = (Throw (Error "Unknown entry type: 83"),
     Build_MavFTP 1 3 [Responded listing_eof]
       [list_request "/" 1 0 0; list_request "/" 1 1 2] []).
Proof.
  apply (listDirectory_undecodable_ack "Timeout" "/"
           (new_MavFTP [Responded listing_ack_1; Responded undecodable_ack;
                        Responded listing_eof])
           [listing_ack_1] undecodable_ack [Responded listing_eof]
           (Error "Unknown entry type: 83") 2
           ltac:(simpl; lia) ltac:(simpl; lia) ltac:(simpl; lia)
           ltac:(repeat constructor; simpl; lia)
           ltac:(vm_compute; discriminate) eq_refl eq_refl eq_refl ltac:(simpl; lia)).
Defined.

(** ** Which operations map a NAK through [handleError] *)

(** [removeFile] and [listDirectory] do not go through [handleError]: a NAK
    with first data byte 2 surfaces there as the table lookup for code 2
    itself, FailErrno. [readFile] does not either: a NAK with first data
    byte 10 surfaces as its own read error, not as FileNotFound. *)
Lemma nak_not_mapped_outside_handleError :
  fst (removeFile "Timeout" "/old.bak" (in_session (nak x02)))
    = Throw (new_Error (FileTransferProtocolError.name (Some 2))) /\
  fst (listDirectory "Timeout" 1 "/" (in_session (nak x02)))
    = Throw (new_Error (FileTransferProtocolError.name (Some 2))) /\
  new_Error (FileTransferProtocolError.name (Some 2)) = Error "FailErrno" /\
  fst (readFile "Timeout" 1 0 (Some onProgress) (in_session (nak x0a)))
    = Throw (Error "Unable to read contents of file: 10") /\
  fst (readFile "Timeout" 1 0 (Some onProgress) (in_session (nak x0a)))
    <> Throw (Error "FileNotFound").
Proof.
  assert (fst (readFile "Timeout" 1 0 (Some onProgress) (in_session (nak x0a)))
          = Throw (Error "Unable to read contents of file: 10")) as H
    by (vm_compute; reflexivity).
  repeat split; try (vm_compute; reflexivity); try exact H.
  rewrite H. discriminate.
Qed.

Lemma handled_exchange {A} (tm : string) (opcode : Z) (data : packet_data)
    (k : FileTransferProtocolPayload -> M A) (this this2 : MavFTP)
    (msg : FileTransferProtocol) (r : FileTransferProtocolPayload) (e : error) :
  packet opcode data 0 default_targets this = (Normal msg, this) ->
  send tm msg 200 6 this = (Normal r, this2) ->
  handleError (Some r) this2 = (Throw e, this2) ->
  (msg ← packet opcode data 0 default_targets;
   response ← send tm msg 200 6;
   _ ← handleError (Some response);
   k response) this = (Throw e, this2).
Proof.
  intros Hpacket Hsend Hhandle.
  rewrite (bind_Normal _ _ _ _ _ Hpacket), (bind_Normal _ _ _ _ _ Hsend).
  rewrite (bind_Throw _ _ _ _ _ Hhandle). reflexivity.
Qed.

Lemma handleError_nak_10 (r : FileTransferProtocolPayload) (this : MavFTP) :
  Payload.opcode r = MavFtpOpcode.NAK ->
  data0 r = Some FileTransferProtocolError.FileNotFound ->
  handleError (Some r) this = (Throw (Error "FileNotFound"), this).
Proof.
  intros Hnak H10. unfold handleError. rewrite Hnak, H10. reflexivity.
Qed.

Lemma handleError_nak_2 (r : FileTransferProtocolPayload) (this : MavFTP) :
  Payload.opcode r = MavFtpOpcode.NAK ->
  data0 r = Some 2 ->
  handleError (Some r) this = (Throw (Error "Filesystem error (2)"), this).
Proof.
  intros Hnak H2. unfold handleError. rewrite Hnak, H2. reflexivity.
Qed.

(** C7, amended: when [resetSessions], [openFileRO] or [terminateSession]
    gets a NAK in answer to its request, a first data byte of 10 makes the
    operation throw the error named FileNotFound, and a first data byte of 2
    makes it throw the filesystem error, which is not the error the table
    lookup gives for code 2. *)
Theorem nak_mapping_of_handled_operations (tm path : string) (this this2 : MavFTP)
    (msg : FileTransferProtocol) (r : FileTransferProtocolPayload) :
  Payload.opcode r = MavFtpOpcode.NAK ->
  send tm msg 200 6 this = (Normal r, this2) ->
  (packet MavFtpOpcode.RESETSESSION (Bytes []) 0 default_targets this = (Normal msg, this) ->
     (data0 r = Some FileTransferProtocolError.FileNotFound ->
        resetSessions tm this = (Throw (Error "FileNotFound"), this2)) /\
     (data0 r = Some 2 ->
        resetSessions tm this = (Throw (Error "Filesystem error (2)"), this2))) /\
  (packet MavFtpOpcode.OPENFILERO (Text path) 0 default_targets this = (Normal msg, this) ->
     (data0 r = Some FileTransferProtocolError.FileNotFound ->
        openFileRO tm path this = (Throw (Error "FileNotFound"), this2)) /\
     (data0 r = Some 2 ->
        openFileRO tm path this = (Throw (Error "Filesystem error (2)"), this2))) /\
  (packet MavFtpOpcode.TERMINATESESSION (Bytes []) 0 default_targets this
     = (Normal msg, this) ->
     (data0 r = Some FileTransferProtocolError.FileNotFound ->
        terminateSession tm this = (Throw (Error "FileNotFound"), this2)) /\
     (data0 r = Some 2 ->
        terminateSession tm this = (Throw (Error "Filesystem error (2)"), this2))) /\
  Error "Filesystem error (2)" <> new_Error (FileTransferProtocolError.name (Some 2)).
Proof.
  intros Hnak Hsend.
  split; [|split; [|split; [|discriminate]]]; intros Hpacket; split; intros Hcode.
  - apply (handled_exchange tm _ _ _ this this2 msg r _ Hpacket Hsend).
    apply handleError_nak_10; assumption.
  - apply (handled_exchange tm _ _ _ this this2 msg r _ Hpacket Hsend).
    apply handleError_nak_2; assumption.
  - apply (handled_exchange tm _ _ _ this this2 msg r _ Hpacket Hsend).
    apply handleError_nak_10; assumption.
  - apply (handled_exchange tm _ _ _ this this2 msg r _ Hpacket Hsend).
    apply handleError_nak_2; assumption.
  - apply (handled_exchange tm _ _ _ this this2 msg r _ Hpacket Hsend).
    apply handleError_nak_10; assumption.
  - apply (handled_exchange tm _ _ _ this this2 msg r _ Hpacket Hsend).
    apply handleError_nak_2; assumption.
Qed.

Lemma nak_mapping_of_handled_operations_witness :
  resetSessions "Timeout" (in_session (nak x02))
    = (Throw (Error "Filesystem error (2)"),
       Build_MavFTP 9 78 []
         [request_message 5 9 MavFtpOpcode.RESETSESSION (Bytes []) 0] []) /\
  openFileRO "Timeout" "/log.bin" (in_session (nak x0a))
    = (Throw (Error "FileNotFound"),
       Build_MavFTP 9 78 []
         [request_message 5 9 MavFtpOpcode.OPENFILERO (Text "/log.bin") 0] []) /\
  terminateSession "Timeout" (in_session (nak x02))
    = (Throw (Error "Filesystem error (2)"),
       Build_MavFTP 9 78 []
         [request_message 5 9 MavFtpOpcode.TERMINATESESSION (Bytes []) 0] []).
Proof.
  split; [|split].
  - apply (proj2 (proj1 (nak_mapping_of_handled_operations "Timeout" "/log.bin"
             (in_session (nak x02)) _
             (request_message 5 9 MavFtpOpcode.RESETSESSION (Bytes []) 0) (nak x02)
             eq_refl ltac:(vm_compute; reflexivity)) ltac:(vm_compute; reflexivity))).
    reflexivity.
  - apply (proj1 (proj1 (proj2 (nak_mapping_of_handled_operations "Timeout" "/log.bin"
             (in_session (nak x0a)) _
             (request_message 5 9 MavFtpOpcode.OPENFILERO (Text "/log.bin") 0) (nak x0a)
             eq_refl ltac:(vm_compute; reflexivity))) ltac:(vm_compute; reflexivity))).
    reflexivity.
  - apply (proj2 (proj1 (proj2 (proj2 (nak_mapping_of_handled_operations "Timeout" "/log.bin"
             (in_session (nak x02)) _
             (request_message 5 9 MavFtpOpcode.TERMINATESESSION (Bytes []) 0) (nak x02)
             eq_refl ltac:(vm_compute; reflexivity)))) ltac:(vm_compute; reflexivity))).
    reflexivity.
Defined.
